(** * Superstore dashboard: the data pipeline of [main.py]

    A shallow embedding of the table-handling code of [main.py]
    ([load_dataset], [add_feature_engineering], [prepare_features] and the
    two prediction blocks) together with the properties the specification
    states about it.

    pandas objects are mutable and passed by reference, and the code relies
    on [DataFrame.copy] to protect its inputs.  The embedding therefore keeps
    an explicit store of frames: every Python variable holding a frame is a
    location, [df.copy()] and [df.drop(...)] allocate, and [df[c] = v]
    updates the frame stored at a location in place. *)

From Stdlib Require Import ZArith QArith Lqa String Ascii DecimalString.
From stdpp Require Import base list strings sorting.

Local Open Scope string_scope.
Local Open Scope list_scope.
Local Open Scope Z_scope.

(** ** Cell values *)

(** A cell holds a string, an integer, a float, a timestamp or the missing
    marker (pandas' NaN / NaT / None).  Floats that occur in this program are
    day counts and medians of day counts, that is integers and half-integers
    far below 2^53; they are represented exactly by rationals in lowest
    terms.  A timestamp is a number of nanoseconds since 1970-01-01. *)
Inductive cell : Type :=
| VStr (s : string)
| VInt (z : Z)
| VFloat (q : Q)
| VDate (ns : Z)
| Missing.

Definition is_missing (c : cell) : bool :=
  match c with Missing => true | _ => false end.

(** ** Calendar arithmetic behind [.dt.year], [.dt.month], [.dt.days] *)

Definition ns_per_day : Z := 86400 * 1000000000.

(** Proleptic Gregorian calendar: day number (days since 1970-01-01) to
    (year, month, day). *)
Definition civil_from_days (z : Z) : Z * Z * Z :=
  let z := z + 719468 in
  let era := z / 146097 in
  let doe := z - era * 146097 in
  let yoe := (doe - doe / 1460 + doe / 36524 - doe / 146096) / 365 in
  let doy := doe - (365 * yoe + yoe / 4 - yoe / 100) in
  let mp := (5 * doy + 2) / 153 in
  let d := doy - (153 * mp + 2) / 5 + 1 in
  let m := if mp <? 10 then mp + 3 else mp - 9 in
  let y := yoe + era * 400 in
  (if m <=? 2 then y + 1 else y, m, d).

Definition days_from_civil (y m d : Z) : Z :=
  let y := if m <=? 2 then y - 1 else y in
  let era := y / 400 in
  let yoe := y - era * 400 in
  let doy := (153 * (if 2 <? m then m - 3 else m + 9) + 2) / 5 + d - 1 in
  let doe := yoe * 365 + yoe / 4 - yoe / 100 + doy in
  era * 146097 + doe - 719468.

Definition year_of (ns : Z) : Z := (civil_from_days (ns / ns_per_day)).1.1.
Definition month_of (ns : Z) : Z := (civil_from_days (ns / ns_per_day)).1.2.

(** [Timedelta.days]: whole days, rounded towards minus infinity. *)
Definition delta_days (ns : Z) : Z := ns / ns_per_day.

(** ** Series: the operations the code applies to single columns *)

(** A datetime64 column as cells: NaT is the missing marker. *)
Definition date_cells (l : list (option Z)) : list cell :=
  map (λ o, match o with Some ns => VDate ns | None => Missing end) l.

(** A column of optional integers as pandas stores it: int64 when no value
    is missing, float64 with NaN otherwise. *)
Definition int_cells (l : list (option Z)) : list cell :=
  map (λ o, match o with Some z => VInt z | None => Missing end) l.

Definition float_cells (l : list (option Z)) : list cell :=
  map (λ o, match o with Some z => VFloat (inject_Z z) | None => Missing end) l.

Definition numeric_cells (l : list (option Z)) : list cell :=
  if forallb (λ o : option Z, bool_decide (is_Some o)) l
  then int_cells l else float_cells l.

(** The values of a datetime-like column, as the [.dt] accessor sees them;
    [None] when the column holds anything but timestamps and NaT. *)
Fixpoint as_datetimes (l : list cell) : option (list (option Z)) :=
  match l with
  | [] => Some []
  | VDate ns :: l => option_map (cons (Some ns)) (as_datetimes l)
  | Missing :: l => option_map (cons None) (as_datetimes l)
  | _ :: _ => None
  end.

(** [a - b] on two datetime columns: NaT wherever either side is NaT. *)
Definition sub_dates (a b : list (option Z)) : list (option Z) :=
  zip_with (λ x y, match x, y with Some s, Some o => Some (s - o) | _, _ => None end) a b.

(** [Series.isna().any()] *)
Definition isna_any (l : list cell) : bool := existsb is_missing l.

(** The numeric value of a cell, for [Series.median]; missing and
    non-numeric cells have none. *)
Definition cell_number (c : cell) : option Q :=
  match c with
  | VInt z => Some (inject_Z z)
  | VFloat q => Some q
  | _ => None
  end.

Fixpoint insert_sorted (x : Q) (l : list Q) : list Q :=
  match l with
  | [] => [x]
  | y :: l' => if Qle_bool x y then x :: l else y :: insert_sorted x l'
  end.

Definition sort_values (l : list Q) : list Q := foldr insert_sorted [] l.

(** The median of a list of numbers: the middle value of the sorted list, or
    the mean of the two middle values; undefined on the empty list. *)
Definition median (l : list Q) : option Q :=
  let s := sort_values l in
  let n := length s in
  if Nat.eqb n 0 then None
  else if Nat.odd n then s !! (n / 2)%nat
  else match s !! (n / 2 - 1)%nat, s !! (n / 2)%nat with
       | Some a, Some b => Some (Qred ((a + b) / inject_Z 2))
       | _, _ => None
       end.


(** [Series.median()]: missing values are skipped; NaN ([None]) when nothing
    is left. *)
Definition series_median (l : list cell) : option Q :=
  median (omap cell_number l).

(** [Series.fillna(v)] where [v] is a float or NaN; filling with NaN leaves
    the column as it is. *)
Definition fillna (v : option Q) (l : list cell) : list cell :=
  match v with
  | Some q => map (λ c, if is_missing c then VFloat q else c) l
  | None => l
  end.

(** ** Frames *)

(** A frame is column-major, as in pandas: the length of its index and its
    columns in order, each a label with its cells. *)
Record DataFrame : Type := mkFrame {
  index_len : nat;
  cols : list (string * list cell)
}.

(** [df.columns] *)
Definition columns (df : DataFrame) : list string := (cols df).*1.

(** A frame as [read_csv] produces it: labels are unique and every column
    has one cell per row. *)
Definition wf_frame (df : DataFrame) : Prop :=
  NoDup (columns df) ∧ Forall (λ c, length c.2 = index_len df) (cols df).

Fixpoint col_lookup (c : string) (cs : list (string * list cell)) : option (list cell) :=
  match cs with
  | [] => None
  | (n, v) :: cs' => if String.eqb n c then Some v else col_lookup c cs'
  end.

(** The effect of [df[c] = v] on the columns: an existing label keeps its
    position and gets the new cells, a new label is appended. *)
Fixpoint col_assign (c : string) (v : list cell) (cs : list (string * list cell))
  : list (string * list cell) :=
  match cs with
  | [] => [(c, v)]
  | (n, w) :: cs' => if String.eqb n c then (n, v) :: cs' else (n, w) :: col_assign c v cs'
  end.

(** The effect of [df.drop(columns=[c])] on the columns. *)
Definition col_drop (c : string) (cs : list (string * list cell)) : list (string * list cell) :=
  filter (λ p, p.1 ≠ c) cs.

(** ** Exceptions, the store and the monad of Python statements *)

Inductive exn : Type :=
| FileNotFoundError (msg : string)
| ValueError (msg : string)
| TypeError (msg : string)
| KeyError (key : string)
| AttributeError (msg : string)
| NameError (msg : string)
| OtherError (msg : string).

Definition loc := nat.
Definition heap := list DataFrame.

(** A statement runs in a store and either raises or returns, leaving a
    store behind in both cases. *)
Definition M (A : Type) : Type := heap → (exn + A) * heap.

#[global] Instance M_ret : MRet M := λ A a h, (inr a, h).
#[global] Instance M_bind : MBind M := λ A B k m h,
  match m h with
  | (inr a, h') => k a h'
  | (inl e, h') => (inl e, h')
  end.

Definition raise {A} (e : exn) : M A := λ h, (inl e, h).

Definition lift {A} (r : exn + A) : M A := λ h, (r, h).

Definition deref (r : loc) : M DataFrame := λ h,
  match h !! r with
  | Some df => (inr df, h)
  | None => (inl (NameError "unbound frame"), h)
  end.

Definition alloc (df : DataFrame) : M loc := λ h, (inr (length h), h ++ [df]).

Definition store (r : loc) (df : DataFrame) : M unit := λ h, (inr tt, <[r:=df]> h).

(** [try: m except Exception: handler] *)
Definition try_except {A} (m : M A) (handler : exn → M A) : M A := λ h,
  match m h with
  | (inr a, h') => (inr a, h')
  | (inl e, h') => handler e h'
  end.

Definition show_nat (n : nat) : string := NilEmpty.string_of_uint (Nat.to_uint n).

(** ** pandas operations on frames in the store *)

(** [df.copy()] *)
Definition df_copy (r : loc) : M loc := df ← deref r; alloc df.

(** [df.columns] *)
Definition df_columns (r : loc) : M (list string) := df ← deref r; mret (columns df).

(** [df[c]] *)
Definition df_getitem (r : loc) (c : string) : M (list cell) :=
  df ← deref r;
  match col_lookup c (cols df) with
  | Some v => mret v
  | None => raise (KeyError c)
  end.

(** The frame with the cells [v] under the label [c]. *)
Definition with_column (df : DataFrame) (c : string) (v : list cell) : DataFrame :=
  mkFrame (index_len df) (col_assign c v (cols df)).

(** A frame without rows given [n] rows: its columns are filled with the
    missing marker. *)
Definition reindexed (n : nat) (df : DataFrame) : DataFrame :=
  mkFrame n (map (λ p, (p.1, replicate n Missing)) (cols df)).

(** [df[c] = v], in place, for a value that pandas places by position: a
    list, a one-dimensional array, or a Series that carries the index of
    [df] itself, as every Series computed from columns of [df] does.  A
    frame that has no rows takes its rows from a non-empty [v] (pandas,
    [_ensure_valid_index]); otherwise [v] must have one value per row, or
    the assignment is refused.  A Series with an index of its own is not
    placed by position but aligned; see [df_assign]. *)
Definition df_setitem (r : loc) (c : string) (v : list cell) : M unit :=
  df ← deref r;
  if Nat.eqb (index_len df) 0 && negb (Nat.eqb (length v) 0)
  then store r (with_column (reindexed (length v) df) c v)
  else if decide (length v = index_len df)
  then store r (with_column df c v)
  else raise (ValueError ("Length of values (" +:+ show_nat (length v)
                          +:+ ") does not match length of index ("
                          +:+ show_nat (index_len df) +:+ ")")).

(** [df.drop(columns=[c])]: a new frame; an unknown label is an error. *)
Definition df_drop (r : loc) (c : string) : M loc :=
  df ← deref r;
  if bool_decide (c ∈ columns df)
  then alloc (mkFrame (index_len df) (col_drop c (cols df)))
  else raise (KeyError c).

(** [s.dt.year], [s.dt.month] and [(a - b).dt.days] *)
Definition dt_values (s : list cell) : M (list (option Z)) :=
  match as_datetimes s with
  | Some l => mret l
  | None => raise (AttributeError "Can only use .dt accessor with datetimelike values")
  end.

Definition dt_year (s : list cell) : M (list cell) :=
  l ← dt_values s; mret (numeric_cells (map (option_map year_of) l)).

Definition dt_month (s : list cell) : M (list cell) :=
  l ← dt_values s; mret (numeric_cells (map (option_map month_of) l)).

Definition sub_dt_days (a b : list cell) : M (list cell) :=
  x ← dt_values a; y ← dt_values b;
  mret (numeric_cells (map (option_map delta_days) (sub_dates x y))).

(** ** The functions of [main.py] *)

Definition needed_cols : list string := ["Order Date"; "Ship Date"].

(** [for c in l: df = body(c, df)] *)
Fixpoint for_in {A B} (l : list A) (body : A → B → M B) (acc : B) : M B :=
  match l with
  | [] => mret acc
  | c :: l' => acc' ← body c acc; for_in l' body acc'
  end.

(** What [pd.to_datetime(s, errors="coerce")] returns when it returns: a
    datetime64 column without time zone, with NaT ([None]) where a value
    does not parse; or a column of another dtype.  The latter arises when
    the values carry UTC offsets: the column is then time-zone aware, or,
    with differing offsets, a column of Python objects in some versions of
    pandas.  Such a column is kept with its cells; what pandas computes
    from it is not fixed here.  The dtype of a column is not part of a
    frame in this embedding; where the code depends on it, it is remembered
    beside the frame. *)
Inductive parsed : Type :=
| Naive (l : list (option Z))
| OtherDtype (cells : list cell).

Definition parsed_cells (p : parsed) : list cell :=
  match p with
  | Naive l => date_cells l
  | OtherDtype cells => cells
  end.

(** The values of a parse that gave a timezone-free datetime column;
    nothing for any other outcome. *)
Definition naive_values (r : exn + parsed) : list (option Z) :=
  match r with
  | inr (Naive l) => l
  | _ => []
  end.

(** Lines 39-44 on two date columns that are both timezone-free datetime
    columns.  Every value assigned here is a Series computed from columns
    of [df] itself, so it carries the index of [df] and the alignment
    pandas performs on assignment is the identity. *)
Definition date_features (df : loc) : M unit :=
  od ← df_getitem df "Order Date";
  year ← dt_year od;
  df_setitem df "OrderYear" year;;
  od ← df_getitem df "Order Date";
  month ← dt_month od;
  df_setitem df "OrderMonth" month;;
  sd ← df_getitem df "Ship Date";
  od ← df_getitem df "Order Date";
  days ← sub_dt_days sd od;
  df_setitem df "ShipDays" days;;
  s ← df_getitem df "ShipDays";
  if isna_any s
  then
    s1 ← df_getitem df "ShipDays";
    s2 ← df_getitem df "ShipDays";
    df_setitem df "ShipDays" (fillna (series_median s2) s1)
  else mret tt.

Section FeatureEngineering.

(** [pd.to_datetime(s, errors="coerce")] is pandas' date parser.  It is not
    part of this repository and is taken as given.  It may raise (on a
    column of booleans, for one), and what it returns may be a column of
    any of the dtypes above. *)
Variable to_datetime : list cell → exn + parsed.

(** The order in which Python iterates over a set of strings.  It varies
    from run to run (string hashing is randomised), so it is taken as
    given as well: it lists the elements of the set, in some order. *)
Variable set_order : list string → list string.

(** What lines 39-44 do when the two date columns are not both
    timezone-free datetime columns.  pandas decides: the subtraction of
    line 41 raises a [TypeError] when one column is time-zone aware and the
    other is not, [.dt] raises an [AttributeError] on a column of objects,
    two aware columns go through.  Taken as given: from the two parsed
    columns and the frame as line 37 leaves it, to what is raised, if
    anything, and the frame as it is left. *)
Variable other_dtypes : parsed → parsed → DataFrame → (exn + unit) * DataFrame.

Definition date_features_other (order_date ship_date : parsed) (df : loc) : M unit :=
  λ h,
  match h !! df with
  | Some f =>
      let r := other_dtypes order_date ship_date f in
      (r.1, <[df := r.2]> h)
  | None => (inl (NameError "unbound frame"), h)
  end.

(** [add_feature_engineering], lines 28-46. *)
Definition add_feature_engineering (df : loc) : M loc :=
  df ← df_copy df;
  cs ← df_columns df;
  (if negb (forallb (λ c, bool_decide (c ∈ cs)) needed_cols)
   then
     let missing := filter (λ c, c ∉ cs) needed_cols in
     raise (ValueError ("Kolom wajib tidak ada: "
                        +:+ String.concat ", " (set_order missing)))
   else mret tt);;
  od ← df_getitem df "Order Date";
  order_date ← lift (to_datetime od);
  df_setitem df "Order Date" (parsed_cells order_date);;
  sd ← df_getitem df "Ship Date";
  ship_date ← lift (to_datetime sd);
  df_setitem df "Ship Date" (parsed_cells ship_date);;
  match order_date, ship_date with
  | Naive _, Naive _ => date_features df
  | _, _ => date_features_other order_date ship_date df
  end;;
  mret df.

End FeatureEngineering.

(** [prepare_features], lines 48-59. *)
Definition prepare_features (df_enriched : loc) (drop_cols : list string)
           (target_col : string) : M loc :=
  df ← df_copy df_enriched;
  df ← for_in drop_cols (λ c df,
         cs ← df_columns df;
         if bool_decide (c ∈ cs) then df_drop df c else mret df) df;
  cs ← df_columns df;
  df ← (if bool_decide (target_col ∈ cs) then df_drop df target_col else mret df);
  mret df.

(** ** The prediction blocks *)

(** What a model's [predict] returns.  A scikit-learn estimator returns a
    one-dimensional array, which pandas places by position, as it does a
    list.  The artifact is an arbitrary pickled object, though, and its
    [predict] may return something else: a pandas Series, which the
    assignment aligns on the index instead (so that a Series with fewer
    entries than the table has rows is accepted), a scalar, a frame.  Such
    an answer is represented by what the assignment [out[label] = answer]
    makes of the frame [out], or raises. *)
Inductive answer : Type :=
| Values (l : list cell)
| OtherObject (assign : string → DataFrame → exn + DataFrame).

(** [df[c] = a] for an answer of the model, in place. *)
Definition df_assign (r : loc) (c : string) (a : answer) : M unit :=
  match a with
  | Values v => df_setitem r c v
  | OtherObject assign =>
      df ← deref r;
      df' ← lift (assign c df);
      store r df'
  end.

(** What [joblib.load] returns: the pretrained model, seen through its
    [predict] method, the columns to drop and the target column.  The model
    is opaque; [predict] may raise. *)
Record Artifact : Type := mkArtifact {
  model_predict : DataFrame → exn + answer;
  artifact_drop_cols : list string;
  artifact_target_col : string
}.

Inductive Mode : Type := KlasifikasiSegment | RegresiSales.

(** The label of the column that receives the predictions (lines 166 and
    221). *)
Definition predicted_label (mode : Mode) (target : string) : string :=
  match mode with
  | KlasifikasiSegment => "Predicted Segment"
  | RegresiSales => "Predicted " +:+ target
  end.

(** The body of the [try] of either prediction block, lines 162-166 and
    217-221.  An exception leaves the block at once: the [except] clause
    reports it and nothing of the output is shown. *)
Definition predict_block (mode : Mode) (df_raw df_enriched : loc) (art : Artifact)
  : M loc :=
  X_pred ← prepare_features df_enriched (artifact_drop_cols art) (artifact_target_col art);
  X ← deref X_pred;
  preds ← lift (model_predict art X);
  out ← df_copy df_raw;
  df_assign out (predicted_label mode (artifact_target_col art)) preds;;
  mret out.

Section Request.

Variable to_datetime : list cell → exn + parsed.
Variable set_order : list string → list string.
Variable other_dtypes : parsed → parsed → DataFrame → (exn + unit) * DataFrame.

(** One pass of the script over a loaded dataset with the button pressed:
    feature engineering (line 126), the column listing inside the expander
    (lines 156 and 211), then the prediction block. *)
Definition predict_request (mode : Mode) (df_raw : loc) (art : Artifact) : M loc :=
  df_enriched ← add_feature_engineering to_datetime set_order other_dtypes df_raw;
  X_for_model ← prepare_features df_enriched (artifact_drop_cols art)
                                 (artifact_target_col art);
  predict_block mode df_raw df_enriched art.

End Request.

(** ** Loading the dataset *)

Inductive encoding : Type := Latin1 | Utf8.

(** What a path names: a regular file with its bytes, or anything else that
    exists but cannot be read as a file. *)
Inductive node : Type :=
| File (bytes : string)
| Directory.

Definition filesystem := string → option node.

Section Loading.

(** The parser behind [pd.read_csv], applied to the bytes of a file under
    a given encoding.  Not part of this repository. *)
Variable parse_csv : encoding → string → exn + DataFrame.

(** [pd.read_csv(p, encoding=enc)]; without [encoding] pandas reads
    UTF-8. *)
Definition read_csv (fs : filesystem) (p : string) (enc : encoding) : M loc :=
  match fs p with
  | Some (File bytes) => df ← lift (parse_csv enc bytes); alloc df
  | Some Directory => raise (OtherError "IsADirectoryError")
  | None => raise (FileNotFoundError p)
  end.

(** [load_dataset], lines 16-23. *)
Definition load_dataset (fs : filesystem) (csv_path : string) : M loc :=
  if negb (bool_decide (is_Some (fs csv_path)))
  then raise (FileNotFoundError ("File dataset tidak ditemukan: " +:+ csv_path))
  else try_except (read_csv fs csv_path Latin1)
                  (λ _, read_csv fs csv_path Utf8).

End Loading.

(** ** The script: what it shows, in order

    The rest of [main.py] is the Streamlit script that calls the functions
    above.  A run of the script is modelled by the sequence of Streamlit
    calls it makes, each with its data arguments, beside the store of
    frames.  [st.stop()] ends the run; an exception that no [except] clause
    catches ends it as well. *)

(** An argument of a Streamlit call.  The summaries pandas computes for
    display ([describe], [value_counts], [to_csv]) are kept as the frame or
    column they are computed from. *)
Inductive arg : Type :=
| AStr (s : string)
| ANat (n : nat)
| ALabels (l : list string)
| AFrame (df : DataFrame)
| ADescribe (s : list cell)
| AValueCounts (s : list cell)
| ACsv (df : DataFrame)
| AKw (name value : string).

Definition ui_call : Type := string * list arg.
Definition screen : Type := list ui_call.

Inductive halt : Type :=
| Stopped
| Raised (e : exn).

Definition Script (A : Type) : Type :=
  heap * screen → (halt + A) * (heap * screen).

#[global] Instance Script_ret : MRet Script := λ A a s, (inr a, s).
#[global] Instance Script_bind : MBind Script := λ A B k m s,
  match m s with
  | (inr a, s') => k a s'
  | (inl stop, s') => (inl stop, s')
  end.

(** A Streamlit call that only displays.  The screen lists the calls made
    so far, the latest first. *)
Definition call (f : string) (args : list arg) : Script unit :=
  λ s, (inr tt, (s.1, (f, args) :: s.2)).

(** A statement on frames inside the script. *)
Definition run {A} (m : M A) : Script A := λ s,
  match m s.1 with
  | (inr a, h') => (inr a, (h', s.2))
  | (inl e, h') => (inl (Raised e), (h', s.2))
  end.

(** [st.stop()] *)
Definition st_stop {A} : Script A := λ s, (inl Stopped, s).

(** [try: body except Exception as e: handler]; [st.stop()] is not an
    [Exception] and passes through. *)
Definition try_script {A} (body : Script A) (handler : exn → Script A) : Script A :=
  λ s,
  match body s with
  | (inl (Raised e), s') => handler e s'
  | r => r
  end.

(** [f"{n:,}"]: decimal digits in groups of three. *)
Fixpoint group3 (rev_digits : list ascii) (k : nat) : list ascii :=
  match rev_digits with
  | [] => []
  | d :: rest =>
      if Nat.eqb k 3 then ","%char :: d :: group3 rest 1
      else d :: group3 rest (S k)
  end.

Definition thousands (n : nat) : string :=
  string_of_list_ascii
    (rev (group3 (rev (list_ascii_of_string (show_nat n))) 0)).

(** [df.head(n)] *)
Definition head_rows (n : nat) (df : DataFrame) : DataFrame :=
  mkFrame (Nat.min n (index_len df)) (map (λ p, (p.1, take n p.2)) (cols df)).

(** [df[labels]]: the listed columns, in the order listed; a label the
    frame does not have is an error. *)
Fixpoint pick_columns (labels : list string) (cs : list (string * list cell))
  : exn + list (string * list cell) :=
  match labels with
  | [] => inr []
  | c :: rest =>
      match col_lookup c cs with
      | None => inl (KeyError c)
      | Some v =>
          match pick_columns rest cs with
          | inl e => inl e
          | inr picked => inr ((c, v) :: picked)
          end
      end
  end.

Definition df_getitems (r : loc) (labels : list string) : M DataFrame :=
  df ← deref r;
  picked ← lift (pick_columns labels (cols df));
  mret (mkFrame (index_len df) picked).

(** What [joblib.load] yields: a dict that may lack any of the three keys
    the script reads; the values it has are of the kinds the script expects
    (a model, a list of labels, a label). *)
Record ArtifactDict : Type := mkDict {
  dict_model : option (DataFrame → exn + answer);
  dict_drop_cols : option (list string);
  dict_target_col : option string
}.

(** [d[key]] *)
Definition dict_get {A} (key : string) (v : option A) : M A :=
  match v with
  | Some a => mret a
  | None => raise (KeyError key)
  end.

(** What the script takes from outside: the files, the pandas parsers,
    [joblib.load], and the two string functions of Python it applies to
    values it does not control ([repr], behind the text of a [KeyError], and
    [str.lower]). *)
Record World : Type := mkWorld {
  w_fs : filesystem;
  w_parse_csv : encoding → string → exn + DataFrame;
  w_to_datetime : list cell → exn + parsed;
  w_set_order : list string → list string;
  w_other_dtypes : parsed → parsed → DataFrame → (exn + unit) * DataFrame;
  w_joblib_load : string → exn + ArtifactDict;
  w_repr : string → string;
  w_lower : string → string
}.

(** What the user has entered in the sidebar and whether the button of the
    active mode was pressed. *)
Record Inputs : Type := mkInputs {
  in_csv_path : string;
  in_pkl_segment : string;
  in_pkl_sales : string;
  in_mode : Mode;
  in_button : bool
}.

Definition mode_name (m : Mode) : string :=
  match m with
  | KlasifikasiSegment => "Klasifikasi Segment"
  | RegresiSales => "Regresi Sales"
  end.

(** [str(e)] *)
Definition exn_str (w : World) (e : exn) : string :=
  match e with
  | KeyError key => w_repr w key
  | FileNotFoundError msg | ValueError msg | TypeError msg | AttributeError msg
  | NameError msg | OtherError msg => msg
  end.

(** [load_artifact], lines 11-13. *)
Definition load_artifact (w : World) (path : string) : M ArtifactDict :=
  lift (w_joblib_load w path).

Definition wide : list arg := [AKw "use_container_width" "True"].

(** Lines 6 and 64-88: page set-up, title and sidebar. *)
Definition header_block : Script unit :=
  call "st.set_page_config"
       [AKw "page_title" "Superstore - Klasifikasi & Regresi"; AKw "layout" "wide"];;
  call "st.title" [AStr "📌 Aplikasi Superstore — Klasifikasi Segment & Regresi Sales"];;
  call "st.markdown" [AStr "
Aplikasi ini memiliki 2 mode:
- **Klasifikasi Segment**: memprediksi **Consumer / Corporate / Home Office**
- **Regresi Sales**: memprediksi **nilai Sales (angka)**

Model sudah disimpan sebagai **PKL**, jadi aplikasi hanya **load + predict** (tanpa training ulang).
"];;
  call "st.sidebar.header" [AStr "⚙️ Sumber File (tanpa upload)"];;
  call "st.sidebar.text_input" [AStr "File dataset (.csv)"; AStr "Sample - Superstore.csv"];;
  call "st.sidebar.markdown" [AStr "---"];;
  call "st.sidebar.subheader" [AStr "📦 File Model (.pkl)"];;
  call "st.sidebar.text_input"
       [AStr "PKL Klasifikasi Segment"; AStr "superstore_segment_voting.pkl"];;
  call "st.sidebar.text_input"
       [AStr "PKL Regresi Sales (RF)"; AStr "superstore_reg_sales_rf.pkl"];;
  call "st.sidebar.markdown" [AStr "---"];;
  call "st.sidebar.radio"
       [AStr "Pilih Mode"; ALabels ["Klasifikasi Segment"; "Regresi Sales"]].

(** Lines 93-98: the dataset, or an error and the end of the run. *)
Definition load_block (w : World) (inp : Inputs) : Script loc :=
  try_script
    (run (load_dataset (w_parse_csv w) (w_fs w) (in_csv_path inp)))
    (λ e,
       call "st.error" [AStr ("❌ Gagal load dataset: " +:+ exn_str w e)];;
       call "st.info" [AStr "Pastikan CSV ada di folder yang sama dengan main.py, atau ubah path di sidebar."];;
       st_stop).

(** Lines 103-123: the size of the dataset, its first rows, and the
    heading of the feature engineering part. *)
Definition overview_block (inp : Inputs) (df_raw : loc) : Script unit :=
  raw ← run (deref df_raw);
  call "st.columns" [ANat 3];;
  call "c1.metric" [AStr "Jumlah Baris"; AStr (thousands (index_len raw))];;
  call "c2.metric" [AStr "Jumlah Kolom"; AStr (show_nat (length (columns raw)))];;
  call "c3.metric" [AStr "Mode Aktif"; AStr (mode_name (in_mode inp))];;
  call "st.subheader" [AStr "🔎 Preview Dataset Asli (sebelum Feature Engineering)"];;
  call "st.dataframe" (AFrame (head_rows 15 raw) :: wide);;
  call "st.markdown" [AStr "---"];;
  call "st.header" [AStr "🛠️ Feature Engineering"];;
  call "st.markdown" [AStr "
Kolom tanggal diubah jadi fitur:
- **OrderYear** (tahun order)
- **OrderMonth** (bulan order)
- **ShipDays** (selisih hari pengiriman - pemesanan)
"].

(** Lines 125-136: the enriched table with a preview of its date and
    derived columns, or an error and the end of the run. *)
Definition enrich_block (w : World) (df_raw : loc) : Script loc :=
  try_script
    (df_enriched ← run (add_feature_engineering (w_to_datetime w) (w_set_order w)
                                                (w_other_dtypes w) df_raw);
     cs ← run (df_columns df_enriched);
     let show_cols :=
       filter (λ c, c ∈ cs)
              ["Order Date"; "Ship Date"; "OrderYear"; "OrderMonth"; "ShipDays"] in
     call "st.subheader" [AStr "Hasil Feature Engineering (contoh 20 baris)"];;
     shown ← run (df_getitems df_enriched show_cols);
     call "st.dataframe" (AFrame (head_rows 20 shown) :: wide);;
     call "st.subheader" [AStr "Ringkasan ShipDays"];;
     ship_days ← run (df_getitem df_enriched "ShipDays");
     call "st.write" [ADescribe ship_days];;
     mret df_enriched)
    (λ e,
       call "st.error" [AStr ("❌ Feature engineering gagal: " +:+ exn_str w e)];;
       st_stop).

(** Lines 145-153: the classification artifact, or an error and the end
    of the run. *)
Definition segment_artifact (w : World) (inp : Inputs) : Script Artifact :=
  try_script
    (artifact_cls ← run (load_artifact w (in_pkl_segment inp));
     model_cls ← run (dict_get "model" (dict_model artifact_cls));
     drop_cols_cls ← run (dict_get "drop_cols" (dict_drop_cols artifact_cls));
     target_cls ← run (dict_get "target_col" (dict_target_col artifact_cls));
     call "st.sidebar.success" [AStr "PKL Klasifikasi loaded ✅"];;
     mret (mkArtifact model_cls drop_cols_cls target_cls))
    (λ e,
       call "st.sidebar.error" [AStr ("Gagal load PKL Klasifikasi: " +:+ exn_str w e)];;
       st_stop).

(** Lines 161-189: what pressing "Prediksi Segment" does. *)
Definition segment_predict (w : World) (df_raw df_enriched : loc) (art : Artifact)
  : Script unit :=
  try_script
    (out ← run (predict_block KlasifikasiSegment df_raw df_enriched art);
     call "st.tabs" [ALabels ["📌 Ringkasan"; "📄 Tabel Hasil"; "⬇️ Download"]];;
     call "st.subheader" [AStr "Distribusi Hasil Prediksi Segment"];;
     predicted ← run (df_getitem out "Predicted Segment");
     call "st.write" [AValueCounts predicted];;
     call "st.subheader" [AStr "Preview Hasil Prediksi (50 baris)"];;
     table ← run (deref out);
     call "st.dataframe" (AFrame (head_rows 50 table) :: wide);;
     call "st.subheader" [AStr "Download Hasil Prediksi"];;
     table ← run (deref out);
     call "st.download_button"
          [AStr "Download hasil prediksi segment (.csv)"; ACsv table;
           AKw "file_name" "superstore_predicted_segment.csv";
           AKw "mime" "text/csv"];;
     call "st.success" [AStr "✅ Prediksi Segment selesai!"])
    (λ e, call "st.error" [AStr ("❌ Error saat prediksi segment: " +:+ exn_str w e)]).

(** Lines 141-189: classification mode. *)
Definition segment_block (w : World) (inp : Inputs) (df_raw df_enriched : loc)
  : Script unit :=
  call "st.markdown" [AStr "---"];;
  call "st.header" [AStr "🚀 Prediksi Segment (Klasifikasi)"];;
  art ← segment_artifact w inp;
  call "st.expander" [AStr "Lihat kolom input yang dipakai model klasifikasi"];;
  X_for_model ← run (prepare_features df_enriched (artifact_drop_cols art)
                                      (artifact_target_col art));
  X ← run (deref X_for_model);
  call "st.write" [AStr "Jumlah kolom input:"; ANat (length (columns X))];;
  call "st.write" [ALabels (columns X)];;
  call "st.button" [AStr "Prediksi Segment"; AKw "type" "primary"];;
  if in_button inp
  then segment_predict w df_raw df_enriched art
  else mret tt.

(** Lines 198-206: the regression artifact, or an error and the end of the
    run. *)
Definition sales_artifact (w : World) (inp : Inputs) : Script Artifact :=
  try_script
    (artifact_reg ← run (load_artifact w (in_pkl_sales inp));
     model_reg ← run (dict_get "model" (dict_model artifact_reg));
     drop_cols_reg ← run (dict_get "drop_cols" (dict_drop_cols artifact_reg));
     target_reg ← run (dict_get "target_col" (dict_target_col artifact_reg));
     call "st.sidebar.success" [AStr "PKL Regresi loaded ✅"];;
     mret (mkArtifact model_reg drop_cols_reg target_reg))
    (λ e,
       call "st.sidebar.error" [AStr ("Gagal load PKL Regresi: " +:+ exn_str w e)];;
       st_stop).

(** Lines 216-244: what pressing "Prediksi Sales" does. *)
Definition sales_predict (w : World) (df_raw df_enriched : loc) (art : Artifact)
  : Script unit :=
  let target_reg := artifact_target_col art in
  try_script
    (out ← run (predict_block RegresiSales df_raw df_enriched art);
     call "st.tabs" [ALabels ["📌 Ringkasan"; "📄 Tabel Hasil"; "⬇️ Download"]];;
     call "st.subheader" [AStr ("Ringkasan Prediksi " +:+ target_reg)];;
     predicted ← run (df_getitem out ("Predicted " +:+ target_reg));
     call "st.write" [ADescribe predicted];;
     call "st.subheader" [AStr "Preview Hasil Prediksi (50 baris)"];;
     table ← run (deref out);
     call "st.dataframe" (AFrame (head_rows 50 table) :: wide);;
     call "st.subheader" [AStr "Download Hasil Prediksi"];;
     table ← run (deref out);
     call "st.download_button"
          [AStr ("Download hasil prediksi " +:+ target_reg +:+ " (.csv)"); ACsv table;
           AKw "file_name"
               ("superstore_predicted_" +:+ w_lower w target_reg +:+ ".csv");
           AKw "mime" "text/csv"];;
     call "st.success" [AStr ("✅ Prediksi " +:+ target_reg +:+ " selesai!")])
    (λ e, call "st.error" [AStr ("❌ Error saat prediksi regresi: " +:+ exn_str w e)]).

(** Lines 194-244: regression mode. *)
Definition sales_block (w : World) (inp : Inputs) (df_raw df_enriched : loc)
  : Script unit :=
  call "st.markdown" [AStr "---"];;
  call "st.header" [AStr "📈 Prediksi Sales (Regresi - Random Forest)"];;
  art ← sales_artifact w inp;
  let target_reg := artifact_target_col art in
  call "st.info" [AStr ("Target regresi dari PKL: **" +:+ target_reg +:+ "**")];;
  call "st.expander" [AStr "Lihat kolom input yang dipakai model regresi"];;
  X_for_model ← run (prepare_features df_enriched (artifact_drop_cols art) target_reg);
  X ← run (deref X_for_model);
  call "st.write" [AStr "Jumlah kolom input:"; ANat (length (columns X))];;
  call "st.write" [ALabels (columns X)];;
  call "st.button" [AStr "Prediksi Sales"; AKw "type" "primary"];;
  if in_button inp
  then sales_predict w df_raw df_enriched art
  else mret tt.

(** The whole script, from top to bottom. *)
Definition script (w : World) (inp : Inputs) : Script unit :=
  header_block;;
  df_raw ← load_block w inp;
  overview_block inp df_raw;;
  df_enriched ← enrich_block w df_raw;
  match in_mode inp with
  | KlasifikasiSegment => segment_block w inp df_raw df_enriched
  | RegresiSales => sales_block w inp df_raw df_enriched
  end.

(** One run of the script in a fresh process: no frame exists, nothing is
    on the page, and the caches of [st.cache_resource] and [st.cache_data]
    are empty, so that [load_artifact] and [load_dataset] run their bodies. *)
Definition run_script (w : World) (inp : Inputs) : (halt + unit) * (heap * screen) :=
  script w inp ([], []).

(** What the header and the overview show, read off the blocks themselves
    (latest call first). *)
Definition header_calls : screen := (header_block ([], [])).2.2.

Definition overview_calls (inp : Inputs) (raw : DataFrame) : screen :=
  (overview_block inp 0%nat ([raw], [])).2.2.




(** The chronological list of the names of the calls on a screen. *)
Definition call_names (l : screen) : list string := rev l.*1.

(** ** Small stand-ins for the pandas parsers, to run the code on examples *)

(** A date parser that reads exactly the form YYYY-MM-DD (a valid calendar
    date) and yields NaT for everything else.  On such strings
    [pd.to_datetime] gives the same timestamps. *)
Definition digit_value (a : ascii) : option Z :=
  let n := Z.of_N (N_of_ascii a) in
  if (48 <=? n) && (n <=? 57) then Some (n - 48) else None.

Fixpoint digits_value (s : string) (acc : Z) : option Z :=
  match s with
  | EmptyString => Some acc
  | String a s' =>
      match digit_value a with
      | Some d => digits_value s' (10 * acc + d)
      | None => None
      end
  end.

Definition parse_iso_date (s : string) : option Z :=
  if negb (Nat.eqb (String.length s) 10) then None
  else
    match digits_value (substring 0 4 s) 0, substring 4 1 s,
          digits_value (substring 5 2 s) 0, substring 7 1 s,
          digits_value (substring 8 2 s) 0 with
    | Some y, "-", Some m, "-", Some d =>
        let n := days_from_civil y m d in
        if bool_decide (civil_from_days n = (y, m, d))
        then Some (n * ns_per_day) else None
    | _, _, _, _, _ => None
    end.

Definition to_datetime_iso (s : list cell) : exn + parsed :=
  inr (Naive (map (λ c, match c with
                        | VStr t => parse_iso_date t
                        | VDate ns => Some ns
                        | _ => None
                        end) s)).

(** With [to_datetime_iso] no column is of another dtype; the stand-in for
    what pandas does with such columns is never reached. *)
Definition no_other_dtypes (order_date ship_date : parsed) (df : DataFrame)
  : (exn + unit) * DataFrame :=
  (inl (TypeError "Cannot subtract tz-naive and tz-aware datetime-like objects."), df).

(** Python strings are sequences of code points; a [VStr] cell and a label
    hold their UTF-8 encoding.  Decoding Latin-1 maps every byte to the code
    point of the same number and never fails; decoding UTF-8 fails on an
    ill-formed sequence. *)
Definition byte_value (a : ascii) : Z := Z.of_N (N_of_ascii a).
Definition byte_of (z : Z) : ascii := ascii_of_N (Z.to_N z).

Fixpoint decode_latin1 (bytes : string) : string :=
  match bytes with
  | EmptyString => EmptyString
  | String a rest =>
      let b := byte_value a in
      if b <? 128 then String a (decode_latin1 rest)
      else String (byte_of (192 + b / 64))
             (String (byte_of (128 + b mod 64)) (decode_latin1 rest))
  end.

Definition is_continuation (lo hi : Z) (a : ascii) : bool :=
  (lo <=? byte_value a) && (byte_value a <=? hi).

(** [pending] lists, for the continuation bytes still expected, the range
    each must lie in. *)
Fixpoint utf8_valid (bytes : string) (pending : list (Z * Z)) : bool :=
  match bytes, pending with
  | EmptyString, [] => true
  | EmptyString, _ :: _ => false
  | String a rest, (lo, hi) :: pending' =>
      is_continuation lo hi a && utf8_valid rest pending'
  | String a rest, [] =>
      let b := byte_value a in
      if b <? 128 then utf8_valid rest []
      else if (194 <=? b) && (b <=? 223) then utf8_valid rest [(128, 191)]
      else if b =? 224 then utf8_valid rest [(160, 191); (128, 191)]
      else if b =? 237 then utf8_valid rest [(128, 159); (128, 191)]
      else if (225 <=? b) && (b <=? 239) then utf8_valid rest [(128, 191); (128, 191)]
      else if b =? 240 then utf8_valid rest [(144, 191); (128, 191); (128, 191)]
      else if (241 <=? b) && (b <=? 243) then utf8_valid rest [(128, 191); (128, 191); (128, 191)]
      else if b =? 244 then utf8_valid rest [(128, 143); (128, 191); (128, 191)]
      else false
  end.

Definition decode (enc : encoding) (bytes : string) : exn + string :=
  match enc with
  | Latin1 => inr (decode_latin1 bytes)
  | Utf8 => if utf8_valid bytes [] then inr bytes
            else inl (OtherError "UnicodeDecodeError")
  end.

(** A reader for the plainest delimited files: lines end in LF, fields are
    separated by commas, there is no quoting, and every cell is kept as
    text.  The first line is the header; a short row is padded with missing
    cells and a long row is refused, as [read_csv] does. *)
Fixpoint split_on (sep : ascii) (s : string) (cur : string) : list string :=
  match s with
  | EmptyString => [String.rev cur]
  | String a rest =>
      if Ascii.eqb a sep then String.rev cur :: split_on sep rest EmptyString
      else split_on sep rest (String a cur)
  end.

Definition text_lines (s : string) : list string :=
  filter (λ l, l ≠ EmptyString) (split_on "010"%char s EmptyString).

Definition pad_row (width : nat) (fields : list string) : list cell :=
  take width (map VStr fields ++ replicate width Missing).

Definition parse_text (text : string) : exn + DataFrame :=
  match text_lines text with
  | [] => inl (OtherError "EmptyDataError")
  | header :: rows =>
      let names := split_on ","%char header EmptyString in
      let fields := map (λ r, split_on ","%char r EmptyString) rows in
      if forallb (λ f, Nat.leb (length f) (length names)) fields
      then
        let table := map (pad_row (length names)) fields in
        inr (mkFrame (length rows)
               (imap (λ i n, (n, map (λ r, default Missing (r !! i)) table)) names))
      else inl (OtherError "ParserError")
  end.

Definition parse_csv_plain (enc : encoding) (bytes : string) : exn + DataFrame :=
  match decode enc bytes with
  | inr text => parse_text text
  | inl e => inl e
  end.

(** ** Example tables, models and files *)

(** Three orders, the last not yet shipped (scenario 1 of the
    specification). *)
Definition orders3 : DataFrame := mkFrame 3
  [("Row ID", [VInt 1; VInt 2; VInt 3]);
   ("Order Date", [VStr "2023-01-05"; VStr "2023-02-01"; VStr "2023-03-15"]);
   ("Ship Date", [VStr "2023-01-10"; VStr "2023-02-03"; VStr "pending"]);
   ("Segment", [VStr "Consumer"; VStr "Corporate"; VStr "Consumer"]);
   ("Sales", [VFloat (Qmake 523 2); VFloat (inject_Z 731); VFloat (Qmake 29 2)])].

(** One order whose ship date does not parse. *)
Definition orders_unshipped : DataFrame := mkFrame 1
  [("Order Date", [VStr "2023-03-15"]); ("Ship Date", [VStr "pending"])].

(** A table without "Ship Date". *)
Definition orders_no_ship_date : DataFrame := mkFrame 1
  [("Order Date", [VStr "2023-03-15"]); ("Segment", [VStr "Consumer"])].




(** A classifier that answers "Consumer" for every row, a regressor that
    answers with the row number, and a model that answers with one value
    too few. *)
Definition constant_classifier : Artifact :=
  mkArtifact (λ X, inr (Values (replicate (index_len X) (VStr "Consumer"))))
             ["Row ID"; "Segment"] "Segment".

Definition row_number_regressor : Artifact :=
  mkArtifact (λ X, inr (Values (map (λ i, VFloat (inject_Z (Z.of_nat i)))
                                    (seq 0 (index_len X)))))
             ["Row ID"] "Sales".

Definition short_classifier : Artifact :=
  mkArtifact (λ X, inr (Values (replicate (index_len X - 1) (VStr "Consumer"))))
             ["Row ID"; "Segment"] "Segment".


(** A file of one column, "Name", and one row, whose only cell is an e with
    an acute accent encoded in UTF-8 (the bytes C3 A9). *)
Definition line_feed : string := String "010" "".

Definition accented_file : string :=
  "Name" +:+ line_feed +:+ String (byte_of 195) (String (byte_of 169) "") +:+ line_feed.

Definition disk : filesystem :=
  λ p, if String.eqb p "data.csv" then Some (File accented_file) else None.

(** A dataset file with the three orders, as text. *)
Definition orders_file : string :=
  "Row ID,Order Date,Ship Date,Segment,Sales" +:+ line_feed
  +:+ "1,2023-01-05,2023-01-10,Consumer,261.5" +:+ line_feed
  +:+ "2,2023-02-01,2023-02-03,Corporate,731" +:+ line_feed
  +:+ "3,2023-03-15,pending,Consumer,14.5" +:+ line_feed.

(** A dataset file without a "Ship Date" column. *)
Definition undated_file : string :=
  "Row ID,Order Date,Segment" +:+ line_feed
  +:+ "1,2023-01-05,Consumer" +:+ line_feed.

(** Lower case for text of ASCII letters. *)
Definition ascii_lower (s : string) : string :=
  string_of_list_ascii
    (map (λ a, let n := byte_value a in
               if (65 <=? n) && (n <=? 90) then byte_of (n + 32) else a)
         (list_ascii_of_string s)).

(** A world with two dataset files and two model files. *)
Definition demo_world : World :=
  mkWorld
    (λ p, if String.eqb p "orders.csv" then Some (File orders_file)
          else if String.eqb p "undated.csv" then Some (File undated_file)
          else None)
    parse_csv_plain
    to_datetime_iso
    id
    no_other_dtypes
    (λ p, if String.eqb p "segment.pkl"
          then inr (mkDict (Some (model_predict constant_classifier))
                           (Some ["Row ID"; "Segment"]) (Some "Segment"))
          else if String.eqb p "sales.pkl"
          then inr (mkDict (Some (model_predict row_number_regressor))
                           (Some ["Row ID"]) (Some "Sales"))
          else if String.eqb p "short.pkl"
          then inr (mkDict (Some (model_predict short_classifier))
                           (Some ["Row ID"; "Segment"]) (Some "Segment"))
          else if String.eqb p "broken.pkl"
          then inr (mkDict (Some (model_predict constant_classifier)) None (Some "Segment"))
          else if String.eqb p "failing.pkl"
          then inr (mkDict (Some (λ _, inl (ValueError "X has 3 features, but the model is expecting 12 features as input.")))
                           (Some ["Row ID"; "Segment"]) (Some "Segment"))
          else inl (FileNotFoundError p))
    (λ key, "'" +:+ key +:+ "'")
    ascii_lower.

(** The same world after the models were trained again: the artifacts keep
    their [drop_cols] and [target_col] and hold other models. *)
Definition demo_world_retrained : World :=
  mkWorld
    (w_fs demo_world) parse_csv_plain to_datetime_iso id no_other_dtypes
    (λ p, match w_joblib_load demo_world p with
          | inl e => inl e
          | inr d =>
              inr (mkDict
                     match dict_model d with
                     | Some _ =>
                         Some (λ X, inr (Values (replicate (index_len X) (VStr "Corporate"))))
                     | None => None
                     end
                     (dict_drop_cols d) (dict_target_col d))
          end)
    (w_repr demo_world)
    ascii_lower.


Definition undated_as_text : DataFrame :=
  mkFrame 1
    [("Row ID", [VStr "1"]); ("Order Date", [VStr "2023-01-05"]);
     ("Segment", [VStr "Consumer"])].

(** A date parser that also reads a date followed by " 00:00:00+00:00",
    midnight with the UTC offset zero.  A column in which such values occur
    and no value without offset does is time-zone aware; a column that
    mixes the two kinds is left as it is (what pandas makes of it depends on
    its version). *)
Definition parse_utc_midnight (s : string) : option Z :=
  if String.eqb (substring 10 15 s) " 00:00:00+00:00" && Nat.eqb (String.length s) 25
  then parse_iso_date (substring 0 10 s)
  else None.

Definition has_offset (c : cell) : bool :=
  match c with
  | VStr t => bool_decide (is_Some (parse_utc_midnight t))
  | _ => false
  end.

Definition has_plain_date (c : cell) : bool :=
  match c with
  | VStr t => bool_decide (is_Some (parse_iso_date t))
  | VDate _ => true
  | _ => false
  end.

Definition to_datetime_offsets (s : list cell) : exn + parsed :=
  if negb (existsb has_offset s) then to_datetime_iso s
  else if existsb has_plain_date s then inr (OtherDtype s)
  else inr (OtherDtype
              (map (λ c, match c with
                         | VStr t => match parse_utc_midnight t with
                                     | Some ns => VDate ns
                                     | None => Missing
                                     end
                         | _ => Missing
                         end) s)).

(** Orders whose "Order Date" carries a UTC offset and whose "Ship Date"
    does not. *)
Definition orders_with_offset : DataFrame :=
  mkFrame 2
    [("Order Date", [VStr "2023-01-05 00:00:00+00:00"; VStr "2023-02-01 00:00:00+00:00"]);
     ("Ship Date", [VStr "2023-01-10"; VStr "2023-02-03"])].

(** A pandas Series as the answer of a model, given by its index labels
    and values.  Assigned to a frame that has rows, it is aligned on the
    index of the frame, which is 0, 1, ...: a row gets the value under its
    number, or the missing marker when the Series has none, and entries
    under other labels are dropped; a label that occurs twice makes the
    alignment fail.  A frame without rows takes the entries of a Series
    that is not empty as its rows. *)
Definition series_assign (entries : list (nat * cell)) (c : string) (df : DataFrame)
  : exn + DataFrame :=
  if Nat.eqb (index_len df) 0 && negb (Nat.eqb (length entries) 0)
  then inr (with_column (reindexed (length entries) df) c entries.*2)
  else if bool_decide (entries.*1 = seq 0 (index_len df))
  then inr (with_column df c entries.*2)
  else if bool_decide (NoDup entries.*1)
  then inr (with_column df c
              (map (λ i, default Missing
                            ((λ x : nat * (nat * cell), x.2.2)
                               <$> list_find (λ e, e.1 = i) entries))
                   (seq 0 (index_len df))))
  else inl (ValueError "cannot reindex on an axis with duplicate labels").

(** A model that answers with a Series holding predictions for the first
    two rows only. *)
Definition two_row_series_classifier : Artifact :=
  mkArtifact (λ _, inr (OtherObject
                          (series_assign [(0%nat, VStr "Consumer"); (1%nat, VStr "Corporate")])))
             ["Row ID"; "Segment"] "Segment".

(** What a user may have entered: the dataset, the classification
    artifact, the mode and whether the button was pressed. *)
Definition demo_inputs (csv pkl : string) (mode : Mode) (button : bool) : Inputs :=
  mkInputs csv pkl "sales.pkl" mode button.

(** ** What the functions compute, as functions on frames

    The statements below describe the frame a function leaves in the store
    by the following definitions. *)

Section Denotations.

Variable to_datetime : list cell → exn + parsed.

(** The column under a label parses as a timezone-free datetime column:
    what pandas gives for dates written without UTC offset, as in the
    Superstore data. *)
Definition parses_naive (c : string) (df : DataFrame) : Prop :=
  ∃ l, to_datetime (default [] (col_lookup c (cols df))) = inr (Naive l).

Definition dates_parse (df : DataFrame) : Prop :=
  parses_naive "Order Date" df ∧ parses_naive "Ship Date" df.

(** The parsed "Order Date" and "Ship Date" columns of a frame. *)
Definition order_dates (df : DataFrame) : list (option Z) :=
  naive_values (to_datetime (default [] (col_lookup "Order Date" (cols df)))).

Definition ship_dates (df : DataFrame) : list (option Z) :=
  naive_values (to_datetime (default [] (col_lookup "Ship Date" (cols df)))).

(** The day counts of step 4, before any filling: one per row, missing
    where either date is. *)
Definition derived_ship_days (df : DataFrame) : list (option Z) :=
  map (option_map delta_days) (sub_dates (ship_dates df) (order_dates df)).

(** The "ShipDays" column as line 44 leaves it. *)
Definition ship_days_cells (df : DataFrame) : list cell :=
  let s := numeric_cells (derived_ship_days df) in
  if isna_any s then fillna (series_median s) s else s.

Definition enrich (df : DataFrame) : DataFrame :=
  mkFrame (index_len df)
    (col_assign "ShipDays" (ship_days_cells df)
      (col_assign "OrderMonth" (numeric_cells (map (option_map month_of) (order_dates df)))
        (col_assign "OrderYear" (numeric_cells (map (option_map year_of) (order_dates df)))
          (col_assign "Ship Date" (date_cells (ship_dates df))
            (col_assign "Order Date" (date_cells (order_dates df)) (cols df)))))).

End Denotations.

(** The guarded removal of one column, the pattern of lines 52-53 and
    56-57: the membership test first, the drop only when it holds. *)
Definition drop_if_present (c : string) (df : loc) : M loc :=
  cs ← df_columns df;
  if bool_decide (c ∈ cs) then df_drop df c else mret df.

(** The frame without the columns labelled in [drop_cols] or [target_col]. *)
Definition select (df : DataFrame) (drop_cols : list string) (target_col : string)
  : DataFrame :=
  mkFrame (index_len df)
    (filter (λ p : string * list cell, ¬ (p.1 ∈ drop_cols ∨ p.1 = target_col)) (cols df)).


(** ** Statements that touch the newest frame only

    A statement leaves the older frames alone when, run in a store whose
    last frame is the one it works on, it leaves a store that differs in
    that last frame at most, whatever it returns or raises. *)

Definition last_only {A} (m : M A) (h : heap) (f : DataFrame) : Prop :=
  ∃ res f', m (h ++ [f]) = (res, h ++ [f']).

(** The same for a statement that returns a location: when it returns, it
    returns the newest frame. *)
Definition last_only_to (m : M loc) (h : heap) (f : DataFrame) : Prop :=
  ∃ res f', m (h ++ [f]) = (res, h ++ [f']) ∧ ∀ r', res = inr r' → r' = length h.

(** A message names a column when the label occurs in it. *)
Definition mentions (msg c : string) : Prop :=
  ∃ pre post, msg = pre +:+ c +:+ post.

(** * Properties *)

(** ** Columns *)

Lemma col_lookup_is_Some c (cs : list (string * list cell)) :
  is_Some (col_lookup c cs) ↔ c ∈ cs.*1.
Proof.
  induction cs as [|[n v] cs IH]; csimpl.
  - split; [intros [? ?]; discriminate | intros H; inversion H].
  - destruct (String.eqb_spec n c) as [->|Hne].
    + split; [intros _; left | eauto].
    + rewrite IH. split; [by right | ].
      intros H. apply elem_of_cons in H as [H|H]; [congruence | done].
Qed.

Lemma col_lookup_None c (cs : list (string * list cell)) :
  col_lookup c cs = None ↔ c ∉ cs.*1.
Proof.
  rewrite <- col_lookup_is_Some, eq_None_not_Some. done.
Qed.

Lemma col_lookup_length c v n (cs : list (string * list cell)) :
  Forall (λ p, length p.2 = n) cs → col_lookup c cs = Some v → length v = n.
Proof.
  induction 1 as [|[m w] cs Hw _ IH]; csimpl; [done|].
  destruct (String.eqb m c); [|done]. by intros [= <-].
Qed.


Lemma col_lookup_assign_eq c v (cs : list (string * list cell)) :
  col_lookup c (col_assign c v cs) = Some v.
Proof.
  induction cs as [|[n w] cs IH]; csimpl.
  - by rewrite String.eqb_refl.
  - destruct (String.eqb_spec n c) as [->|Hne]; csimpl.
    + by rewrite String.eqb_refl.
    + by destruct (String.eqb_spec n c).
Qed.

Lemma col_lookup_assign_ne c c' v (cs : list (string * list cell)) :
  c ≠ c' → col_lookup c' (col_assign c v cs) = col_lookup c' cs.
Proof.
  intros Hne. induction cs as [|[n w] cs IH]; csimpl.
  - by destruct (String.eqb_spec c c').
  - destruct (String.eqb_spec n c) as [->|Hnc]; csimpl.
    + by destruct (String.eqb_spec c c').
    + by rewrite IH.
Qed.


Lemma col_assign_fresh c v (cs : list (string * list cell)) :
  c ∉ cs.*1 → col_assign c v cs = cs ++ [(c, v)].
Proof.
  induction cs as [|[n w] cs IH]; csimpl; [done|].
  rewrite not_elem_of_cons. intros [Hne Hnotin].
  destruct (String.eqb_spec n c); [congruence|]. by rewrite IH.
Qed.

Lemma col_drop_names c (cs : list (string * list cell)) :
  (col_drop c cs).*1 = filter (λ n, n ≠ c) cs.*1.
Proof.
  unfold col_drop. induction cs as [|[n w] cs IH]; csimpl; [done|].
  rewrite !filter_cons; csimpl. case_decide; csimpl; by rewrite IH.
Qed.

Lemma col_drop_absent c (cs : list (string * list cell)) :
  c ∉ cs.*1 → col_drop c cs = cs.
Proof.
  unfold col_drop. induction cs as [|[n w] cs IH]; csimpl; [done|].
  rewrite not_elem_of_cons. intros [Hne Hnotin].
  rewrite filter_cons; csimpl. rewrite decide_True by done. by rewrite IH.
Qed.

(** ** Running statements *)

Lemma bind_ok {A B} (m : M A) (k : A → M B) h a h' :
  m h = (inr a, h') → (m ≫= k) h = k a h'.
Proof. intros H. unfold mbind, M_bind. by rewrite H. Qed.

Lemma bind_err {A B} (m : M A) (k : A → M B) h e h' :
  m h = (inl e, h') → (m ≫= k) h = (inl e, h').
Proof. intros H. unfold mbind, M_bind. by rewrite H. Qed.

Lemma deref_run (h : heap) r df :
  h !! r = Some df → deref r h = (inr df, h).
Proof. intros H. unfold deref. by rewrite H. Qed.

Lemma df_copy_run (h : heap) r df :
  h !! r = Some df → df_copy r h = (inr (length h), h ++ [df]).
Proof. intros H. unfold df_copy. by rewrite (bind_ok _ _ _ _ _ (deref_run _ _ _ H)). Qed.

Lemma df_columns_run (h : heap) r df :
  h !! r = Some df → df_columns r h = (inr (columns df), h).
Proof. intros H. unfold df_columns. by rewrite (bind_ok _ _ _ _ _ (deref_run _ _ _ H)). Qed.

Lemma df_getitem_run (h : heap) r df c v :
  h !! r = Some df → col_lookup c (cols df) = Some v →
  df_getitem r c h = (inr v, h).
Proof.
  intros H Hc. unfold df_getitem.
  rewrite (bind_ok _ _ _ _ _ (deref_run _ _ _ H)). by rewrite Hc.
Qed.

Lemma df_setitem_run (h : heap) r df c v :
  h !! r = Some df → length v = index_len df →
  df_setitem r c v h = (inr tt, <[r := with_column df c v]> h).
Proof.
  intros H Hlen. unfold df_setitem.
  rewrite (bind_ok _ _ _ _ _ (deref_run _ _ _ H)).
  rewrite Hlen, andb_negb_r. by rewrite decide_True.
Qed.



Lemma df_drop_run (h : heap) r df c :
  h !! r = Some df → c ∈ columns df →
  df_drop r c h = (inr (length h), h ++ [mkFrame (index_len df) (col_drop c (cols df))]).
Proof.
  intros H Hc. unfold df_drop.
  rewrite (bind_ok _ _ _ _ _ (deref_run _ _ _ H)). by rewrite bool_decide_eq_true_2.
Qed.

Lemma filter_all {A} (P : A → Prop) `{∀ x, Decision (P x)} (l : list A) :
  (∀ x, x ∈ l → P x) → filter P l = l.
Proof.
  intros HP. induction l as [|x l IH]; [done|].
  rewrite filter_cons_True by (apply HP; left).
  rewrite IH; [done|]. intros y Hy. apply HP. by right.
Qed.

Lemma prefix_snoc (h : heap) df : h `prefix_of` h ++ [df].
Proof. by exists [df]. Qed.

Lemma lookup_fresh (h : heap) df : (h ++ [df]) !! length h = Some df.
Proof. by rewrite lookup_app_r, Nat.sub_diag. Qed.

Lemma insert_fresh (h : heap) df df' : <[length h := df']> (h ++ [df]) = h ++ [df'].
Proof. by rewrite insert_app_r_alt, Nat.sub_diag. Qed.

(** ** [prepare_features] *)

Lemma drop_if_present_run (h : heap) r df c :
  h !! r = Some df →
  ∃ r' h', drop_if_present c r h = (inr r', h')
           ∧ h `prefix_of` h'
           ∧ h' !! r' = Some (mkFrame (index_len df) (col_drop c (cols df)))
           ∧ (c ∉ columns df → r' = r ∧ h' = h).
Proof.
  intros H. unfold drop_if_present.
  rewrite (bind_ok _ _ _ _ _ (df_columns_run _ _ _ H)).
  case_bool_decide as Hc.
  - rewrite (df_drop_run _ _ _ _ H Hc).
    eexists _, _. split_and!; [done | apply prefix_snoc | apply lookup_fresh | by intros ?].
  - exists r, h. split_and!; [done | done | | done].
    rewrite col_drop_absent by done. by destruct df.
Qed.

Lemma drop_loop_run (dc : list string) : ∀ (h : heap) r df,
  h !! r = Some df →
  ∃ r' h', for_in dc drop_if_present r h = (inr r', h')
           ∧ h `prefix_of` h'
           ∧ h' !! r' = Some (mkFrame (index_len df)
                                 (filter (λ p : string * list cell, p.1 ∉ dc) (cols df))).
Proof.
  induction dc as [|c dc IH]; intros h r df H; simpl.
  - exists r, h. split_and!; [done | done | ].
    rewrite H. f_equal. destruct df as [n cs]; simpl. f_equal.
    symmetry. apply filter_all. intros p _. apply not_elem_of_nil.
  - destruct (drop_if_present_run h r df c H) as (r1 & h1 & Hrun & Hpre & Hlk & _).
    rewrite (bind_ok _ _ _ _ _ Hrun).
    destruct (IH h1 r1 _ Hlk) as (r2 & h2 & Hrun2 & Hpre2 & Hlk2).
    exists r2, h2. split_and!; [done | by etrans | ].
    rewrite Hlk2. simpl. f_equal. f_equal. unfold col_drop.
    rewrite list_filter_filter. apply list_filter_iff.
    intros p. rewrite not_elem_of_cons. tauto.
Qed.

(** The store grows by one frame for every drop that is carried out.  The
    loop carries out one drop for each distinct label of [dc] that the
    frame has: a label listed twice is dropped once. *)
Lemma drop_if_present_store (h : heap) r df c :
  h !! r = Some df →
  length (drop_if_present c r h).2
  = (length h + (if bool_decide (c ∈ columns df) then 1 else 0))%nat.
Proof.
  intros H. unfold drop_if_present.
  rewrite (bind_ok _ _ _ _ _ (df_columns_run _ _ _ H)).
  case_bool_decide as Hc.
  - rewrite (df_drop_run _ _ _ _ H Hc). simpl. rewrite length_app. simpl. lia.
  - simpl. lia.
Qed.

Lemma filter_iff_in {A} (P Q : A → Prop) `{∀ x, Decision (P x)} `{∀ x, Decision (Q x)}
      (l : list A) :
  (∀ x, x ∈ l → P x ↔ Q x) → filter P l = filter Q l.
Proof.
  intros HPQ. induction l as [|x l IH]; [done|].
  assert (Hx : P x ↔ Q x) by (apply HPQ; left).
  rewrite !filter_cons. rewrite IH by (intros y Hy; apply HPQ; by right).
  destruct (decide (P x)), (decide (Q x)); tauto.
Qed.

Lemma filter_remove_one (P : string → Prop) `{∀ c, Decision (P c)} c (l : list string) :
  NoDup l → c ∈ l → P c →
  length (filter P l) = S (length (filter (λ x, P x ∧ x ≠ c) l)).
Proof.
  intros Hnd Hin HP. induction Hnd as [|x l Hx Hnd IH]; [by apply elem_of_nil in Hin|].
  rewrite !filter_cons. destruct (decide (x = c)) as [->|Hne].
  - rewrite decide_True by done. rewrite decide_False by tauto. simpl. f_equal. f_equal.
    apply filter_iff_in. intros y Hy. split; [|tauto].
    intros HPy. split; [done|]. by intros ->.
  - apply elem_of_cons in Hin as [?|Hin]; [congruence|]. specialize (IH Hin).
    destruct (decide (P x)).
    + rewrite decide_True by done. simpl. by rewrite IH.
    + rewrite decide_False by tauto. done.
Qed.

Lemma drop_loop_store (dc : list string) : ∀ (h : heap) r df r' h',
  h !! r = Some df →
  for_in dc drop_if_present r h = (inr r', h') →
  length h' = (length h + length (filter (λ c, c ∈ columns df) (remove_dups dc)))%nat.
Proof.
  induction dc as [|c dc IH]; intros h r df r' h' H Hrun; simpl in Hrun.
  - injection Hrun as _ <-. simpl. lia.
  - destruct (drop_if_present_run h r df c H) as (r1 & h1 & Hrun1 & _ & Hlk1 & _).
    pose proof (drop_if_present_store h r df c H) as Hlen1.
    rewrite Hrun1 in Hlen1. simpl in Hlen1.
    rewrite (bind_ok _ _ _ _ _ Hrun1) in Hrun.
    rewrite (IH h1 r1 _ r' h' Hlk1 Hrun), Hlen1.
    change (columns (mkFrame (index_len df) (col_drop c (cols df))))
      with ((col_drop c (cols df)).*1).
    rewrite col_drop_names.
    change ((cols df).*1) with (columns df).
    rewrite <- Nat.add_assoc. f_equal. simpl remove_dups.
    case_bool_decide as Hc; destruct (decide_rel elem_of c dc) as [Hdc|Hdc].
    + rewrite (filter_remove_one (λ x, x ∈ columns df) c (remove_dups dc));
        [| apply NoDup_remove_dups | by apply elem_of_remove_dups | done].
      f_equal. f_equal. apply list_filter_iff. intros x.
      rewrite list_elem_of_filter. tauto.
    + rewrite filter_cons_True by done. simpl. f_equal. f_equal.
      apply filter_iff_in. intros x Hx. rewrite list_elem_of_filter.
      split; [tauto|]. intros Hin. split; [|done].
      intros ->. by apply Hdc, elem_of_remove_dups.
    + simpl. f_equal. apply filter_iff_in. intros x Hx. rewrite list_elem_of_filter.
      split; [tauto|]. intros Hin. split; [|done]. by intros ->.
    + rewrite filter_cons_False by done. simpl. f_equal.
      apply filter_iff_in. intros x Hx. rewrite list_elem_of_filter.
      split; [tauto|]. intros Hin. split; [|done]. by intros ->.
Qed.

Lemma prepare_features_unfold r dc t (h : heap) :
  prepare_features r dc t h =
  (df ← df_copy r; df ← for_in dc drop_if_present df; drop_if_present t df) h.
Proof.
  unfold prepare_features, drop_if_present, mbind, M_bind, mret, M_ret.
  destruct (df_copy r h) as [[e|r0] h0]; [done|].
  destruct (for_in dc _ r0 h0) as [[e|r1] h1]; [done|].
  destruct (df_columns r1 h1) as [[e|cs] h2]; [done|].
  by destruct (_ h2) as [[e|r2] h3].
Qed.

(** The frame [prepare_features] returns, and what it leaves of the store:
    the frames that were there are still there, unchanged. *)
Lemma prepare_features_run (h : heap) r df dc t :
  h !! r = Some df →
  ∃ r' h', prepare_features r dc t h = (inr r', h')
           ∧ h `prefix_of` h'
           ∧ h' !! r' = Some (select df dc t).
Proof.
  intros H. rewrite prepare_features_unfold.
  rewrite (bind_ok _ _ _ _ _ (df_copy_run _ _ _ H)).
  destruct (drop_loop_run dc (h ++ [df]) (length h) df (lookup_fresh h df))
    as (r1 & h1 & Hrun1 & Hpre1 & Hlk1).
  rewrite (bind_ok _ _ _ _ _ Hrun1).
  destruct (drop_if_present_run h1 r1 _ t Hlk1) as (r2 & h2 & Hrun2 & Hpre2 & Hlk2 & _).
  rewrite Hrun2.
  exists r2, h2. split_and!; [done | | ].
  - etrans; [|exact Hpre2]. etrans; [|exact Hpre1]. apply prefix_snoc.
  - rewrite Hlk2. unfold select, col_drop. simpl. do 2 f_equal.
    rewrite list_filter_filter. apply list_filter_iff. intros p. tauto.
Qed.

(** ** Series *)

Lemma length_date_cells l : length (date_cells l) = length l.
Proof. apply length_map. Qed.

Lemma length_numeric_cells l : length (numeric_cells l) = length l.
Proof. unfold numeric_cells. destruct (forallb _ l); apply length_map. Qed.

Lemma as_datetimes_date_cells l : as_datetimes (date_cells l) = Some l.
Proof.
  induction l as [|[ns|] l IH]; simpl; [done| |]; by rewrite IH.
Qed.

Lemma dt_values_run l (h : heap) : dt_values (date_cells l) h = (inr l, h).
Proof. unfold dt_values. by rewrite as_datetimes_date_cells. Qed.

Lemma dt_year_run l (h : heap) :
  dt_year (date_cells l) h = (inr (numeric_cells (map (option_map year_of) l)), h).
Proof. unfold dt_year. by rewrite (bind_ok _ _ _ _ _ (dt_values_run l h)). Qed.

Lemma dt_month_run l (h : heap) :
  dt_month (date_cells l) h = (inr (numeric_cells (map (option_map month_of) l)), h).
Proof. unfold dt_month. by rewrite (bind_ok _ _ _ _ _ (dt_values_run l h)). Qed.

Lemma sub_dt_days_run a b (h : heap) :
  sub_dt_days (date_cells a) (date_cells b) h
  = (inr (numeric_cells (map (option_map delta_days) (sub_dates a b))), h).
Proof.
  unfold sub_dt_days.
  rewrite (bind_ok _ _ _ _ _ (dt_values_run a h)).
  by rewrite (bind_ok _ _ _ _ _ (dt_values_run b h)).
Qed.

Lemma length_fillna v l : length (fillna v l) = length l.
Proof. destruct v; simpl; [apply length_map | done]. Qed.

Lemma col_assign_twice c v w (cs : list (string * list cell)) :
  col_assign c w (col_assign c v cs) = col_assign c w cs.
Proof.
  induction cs as [|[n u] cs IH]; simpl.
  - by rewrite String.eqb_refl.
  - destruct (String.eqb_spec n c) as [->|Hne]; simpl.
    + by rewrite String.eqb_refl.
    + destruct (String.eqb_spec n c); [done|]. by rewrite IH.
Qed.

(** ** Strings *)

Lemma append_cons a s1 s2 : String a s1 +:+ s2 = String a (s1 +:+ s2).
Proof. reflexivity. Qed.

Lemma append_nil_r s : s +:+ "" = s.
Proof. induction s as [|a s IH]; [done|]. by rewrite append_cons, IH. Qed.

Lemma append_assoc s1 s2 s3 : (s1 +:+ s2) +:+ s3 = s1 +:+ s2 +:+ s3.
Proof. induction s1 as [|a s1 IH]; [done|]. by rewrite !append_cons, IH. Qed.

Lemma mentions_prefixed pre msg c : mentions msg c → mentions (pre +:+ msg) c.
Proof.
  intros (p & q & ->). exists (pre +:+ p), q. by rewrite append_assoc.
Qed.

Lemma concat_mentions sep (l : list string) c :
  c ∈ l → mentions (String.concat sep l) c.
Proof.
  induction l as [|x l IH]; [by intros ?%elem_of_nil|].
  intros Hc. simpl. destruct l as [|y l].
  - apply list_elem_of_singleton in Hc as ->. exists "", "". by rewrite append_nil_r.
  - apply elem_of_cons in Hc as [->|Hc].
    + by exists "", (sep +:+ String.concat sep (y :: l)).
    + apply (mentions_prefixed x), (mentions_prefixed sep), IH, Hc.
Qed.

(** ** Sorting and the median *)








Lemma median_nil : median [] = None.
Proof. reflexivity. Qed.

(** ** Filling the missing day counts *)


Lemma numeric_cells_all_missing l :
  Forall (λ o, o = None) l → numeric_cells l = replicate (length l) Missing.
Proof.
  intros Hall. unfold numeric_cells.
  assert (Hrep : ∀ f : option Z → cell, f None = Missing →
                 map f l = replicate (length l) Missing).
  { intros f Hf. induction Hall as [|o l -> _ IH]; simpl; [done|]. by rewrite Hf, IH. }
  destruct (forallb _ l); by apply Hrep.
Qed.




Lemma isna_any_replicate n : isna_any (replicate (S n) Missing) = true.
Proof. reflexivity. Qed.

Lemma numbers_of_missing n : omap cell_number (replicate n Missing) = [].
Proof. induction n as [|n IH]; simpl; [done | apply IH]. Qed.

(** ** [add_feature_engineering] on the frame it owns *)

Lemma getitem_last (h : heap) df c v :
  col_lookup c (cols df) = Some v →
  df_getitem (length h) c (h ++ [df]) = (inr v, h ++ [df]).
Proof. intros H. by apply (df_getitem_run _ _ df), H; apply lookup_fresh. Qed.

Lemma setitem_last (h : heap) df c v :
  length v = index_len df →
  df_setitem (length h) c v (h ++ [df]) = (inr tt, h ++ [with_column df c v]).
Proof.
  intros H. rewrite (df_setitem_run _ _ df) by (done || apply lookup_fresh).
  by rewrite insert_fresh.
Qed.

Lemma lift_run {A} (x : exn + A) (h : heap) : lift x h = (x, h).
Proof. reflexivity. Qed.

Section EnrichmentRuns.

Variable to_datetime : list cell → exn + parsed.
Variable set_order : list string → list string.
Variable other_dtypes : parsed → parsed → DataFrame → (exn + unit) * DataFrame.

(** [to_datetime] drops no row. *)
Hypothesis to_datetime_length :
  ∀ s l, to_datetime s = inr (Naive l) → length l = length s.

Lemma length_parsed_column df c :
  wf_frame df → c ∈ columns df → parses_naive to_datetime c df →
  length (naive_values (to_datetime (default [] (col_lookup c (cols df)))))
  = index_len df.
Proof.
  intros [_ Hlen] Hin [l Hl]. rewrite Hl. simpl.
  rewrite (to_datetime_length _ _ Hl).
  apply col_lookup_is_Some in Hin as [v Hv]. rewrite Hv. simpl.
  by eapply col_lookup_length.
Qed.

Lemma length_order_dates df :
  wf_frame df → "Order Date" ∈ columns df → dates_parse to_datetime df →
  length (order_dates to_datetime df) = index_len df.
Proof. intros Hwf Hin [Hp _]. by apply length_parsed_column. Qed.

Lemma length_ship_dates df :
  wf_frame df → "Ship Date" ∈ columns df → dates_parse to_datetime df →
  length (ship_dates to_datetime df) = index_len df.
Proof. intros Hwf Hin [_ Hp]. by apply length_parsed_column. Qed.

Lemma length_derived_ship_days df :
  wf_frame df → "Order Date" ∈ columns df → "Ship Date" ∈ columns df →
  dates_parse to_datetime df →
  length (derived_ship_days to_datetime df) = index_len df.
Proof.
  intros Hwf Ho Hs Hp. unfold derived_ship_days, sub_dates.
  rewrite length_map, length_zip_with, length_order_dates, length_ship_dates by done.
  lia.
Qed.


(** Lines 39-44 on a frame whose date columns hold the timestamps [O] and
    [S]. *)
Lemma date_features_run (h : heap) F2 O S :
  col_lookup "Order Date" (cols F2) = Some (date_cells O) →
  col_lookup "Ship Date" (cols F2) = Some (date_cells S) →
  length O = index_len F2 → length S = index_len F2 →
  date_features (length h) (h ++ [F2])
  = (inr tt,
     h ++ [let D := numeric_cells (map (option_map delta_days) (sub_dates S O)) in
           let F5 :=
             with_column
               (with_column
                  (with_column F2 "OrderYear"
                     (numeric_cells (map (option_map year_of) O)))
                  "OrderMonth" (numeric_cells (map (option_map month_of) O)))
               "ShipDays" D in
           if isna_any D then with_column F5 "ShipDays" (fillna (series_median D) D)
           else F5]).
Proof.
  intros Ho2 Hs2 HlenO HlenS. cbv zeta.
  set (F3 := with_column F2 "OrderYear" (numeric_cells (map (option_map year_of) O))).
  set (F4 := with_column F3 "OrderMonth" (numeric_cells (map (option_map month_of) O))).
  set (D := numeric_cells (map (option_map delta_days) (sub_dates S O))).
  set (F5 := with_column F4 "ShipDays" D).
  assert (HlenD' : length D = index_len F2).
  { unfold D, sub_dates.
    rewrite length_numeric_cells, length_map, length_zip_with. lia. }
  unfold date_features.
  rewrite (bind_ok _ _ _ _ _ (getitem_last h F2 _ _ Ho2)).
  rewrite (bind_ok _ _ _ _ _ (dt_year_run O _)).
  rewrite (bind_ok _ _ _ _ _ (setitem_last h F2 "OrderYear"
             (numeric_cells (map (option_map year_of) O))
             ltac:(by rewrite length_numeric_cells, length_map))).
  fold F3.
  assert (Ho3 : col_lookup "Order Date" (cols F3) = Some (date_cells O))
    by (unfold F3; simpl; by rewrite col_lookup_assign_ne).
  assert (Hs3 : col_lookup "Ship Date" (cols F3) = Some (date_cells S))
    by (unfold F3; simpl; by rewrite col_lookup_assign_ne).
  rewrite (bind_ok _ _ _ _ _ (getitem_last h F3 _ _ Ho3)).
  rewrite (bind_ok _ _ _ _ _ (dt_month_run O _)).
  rewrite (bind_ok _ _ _ _ _ (setitem_last h F3 "OrderMonth"
             (numeric_cells (map (option_map month_of) O))
             ltac:(by rewrite length_numeric_cells, length_map))).
  fold F4.
  assert (Ho4 : col_lookup "Order Date" (cols F4) = Some (date_cells O))
    by (unfold F4; simpl; by rewrite col_lookup_assign_ne).
  assert (Hs4 : col_lookup "Ship Date" (cols F4) = Some (date_cells S))
    by (unfold F4; simpl; by rewrite col_lookup_assign_ne).
  rewrite (bind_ok _ _ _ _ _ (getitem_last h F4 _ _ Hs4)).
  rewrite (bind_ok _ _ _ _ _ (getitem_last h F4 _ _ Ho4)).
  rewrite (bind_ok _ _ _ _ _ (sub_dt_days_run S O _)).
  change (numeric_cells (map (option_map delta_days) (sub_dates S O))) with D.
  rewrite (bind_ok _ _ _ _ _ (setitem_last h F4 "ShipDays" D HlenD')).
  fold F5.
  assert (Hd5 : col_lookup "ShipDays" (cols F5) = Some D)
    by apply col_lookup_assign_eq.
  rewrite (bind_ok _ _ _ _ _ (getitem_last h F5 _ _ Hd5)).
  destruct (isna_any D).
  - rewrite (bind_ok _ _ _ _ _ (getitem_last h F5 _ _ Hd5)).
    rewrite (bind_ok _ _ _ _ _ (getitem_last h F5 _ _ Hd5)).
    apply setitem_last. by rewrite length_fillna.
  - done.
Qed.

(** The function up to line 37, on a table with both date columns whose
    parses return: the private copy holds the two parsed columns. *)
Lemma add_feature_engineering_parsed (h : heap) r df od sd po ps :
  h !! r = Some df →
  col_lookup "Order Date" (cols df) = Some od →
  col_lookup "Ship Date" (cols df) = Some sd →
  to_datetime od = inr po → to_datetime sd = inr ps →
  length (parsed_cells po) = index_len df →
  length (parsed_cells ps) = index_len df →
  add_feature_engineering to_datetime set_order other_dtypes r h
  = ((match po, ps with
      | Naive _, Naive _ => date_features (length h)
      | _, _ => date_features_other other_dtypes po ps (length h)
      end;; mret (length h))
       (h ++ [with_column (with_column df "Order Date" (parsed_cells po))
                          "Ship Date" (parsed_cells ps)])).
Proof.
  intros Hr Hod Hsd Hpo Hps HlenO HlenS.
  assert (Ho : "Order Date" ∈ columns df) by (apply col_lookup_is_Some; by rewrite Hod).
  assert (Hs : "Ship Date" ∈ columns df) by (apply col_lookup_is_Some; by rewrite Hsd).
  unfold add_feature_engineering.
  rewrite (bind_ok _ _ _ _ _ (df_copy_run _ _ _ Hr)).
  rewrite (bind_ok _ _ _ _ _ (df_columns_run _ _ _ (lookup_fresh h df))).
  assert (Hall : forallb (λ c, bool_decide (c ∈ columns df)) needed_cols = true)
    by (simpl; by rewrite !bool_decide_eq_true_2).
  rewrite Hall. simpl negb. cbv iota.
  rewrite (bind_ok _ _ _ tt _ eq_refl).
  set (F1 := with_column df "Order Date" (parsed_cells po)).
  rewrite (bind_ok _ _ _ _ _ (getitem_last h df _ _ Hod)).
  rewrite (bind_ok _ _ _ po (h ++ [df])) by (by rewrite lift_run, Hpo).
  rewrite (bind_ok _ _ _ _ _ (setitem_last h df "Order Date" (parsed_cells po) HlenO)).
  fold F1.
  assert (Hsd1 : col_lookup "Ship Date" (cols F1) = Some sd)
    by (unfold F1; simpl; by rewrite col_lookup_assign_ne).
  rewrite (bind_ok _ _ _ _ _ (getitem_last h F1 _ _ Hsd1)).
  rewrite (bind_ok _ _ _ ps (h ++ [F1])) by (by rewrite lift_run, Hps).
  rewrite (bind_ok _ _ _ _ _ (setitem_last h F1 "Ship Date" (parsed_cells ps) HlenS)).
  reflexivity.
Qed.

(** With both date columns present the function runs to its end: it
    returns a fresh frame holding [enrich df] and touches nothing else. *)
Lemma add_feature_engineering_run (h : heap) r df :
  h !! r = Some df → wf_frame df →
  "Order Date" ∈ columns df → "Ship Date" ∈ columns df →
  dates_parse to_datetime df →
  add_feature_engineering to_datetime set_order other_dtypes r h
  = (inr (length h), h ++ [enrich to_datetime df]).
Proof.
  intros Hr Hwf Ho Hs Hp.
  pose proof (length_order_dates df Hwf Ho Hp) as HlenO.
  pose proof (length_ship_dates df Hwf Hs Hp) as HlenS.
  destruct (proj2 (col_lookup_is_Some _ _) Ho) as [od Hod].
  destruct (proj2 (col_lookup_is_Some _ _) Hs) as [sd Hsd].
  destruct Hp as [[lo Hlo] [ls Hls]].
  rewrite Hod in Hlo. rewrite Hsd in Hls. simpl in Hlo, Hls.
  assert (HO : order_dates to_datetime df = lo)
    by (unfold order_dates; by rewrite Hod; simpl; rewrite Hlo).
  assert (HS : ship_dates to_datetime df = ls)
    by (unfold ship_dates; by rewrite Hsd; simpl; rewrite Hls).
  rewrite HO in HlenO. rewrite HS in HlenS.
  rewrite (add_feature_engineering_parsed h r df od sd (Naive lo) (Naive ls)
             Hr Hod Hsd Hlo Hls)
    by (simpl; by rewrite length_date_cells).
  simpl parsed_cells.
  set (F2 := with_column (with_column df "Order Date" (date_cells lo))
                         "Ship Date" (date_cells ls)).
  assert (Ho2 : col_lookup "Order Date" (cols F2) = Some (date_cells lo)).
  { unfold F2; simpl.
    rewrite col_lookup_assign_ne by done. apply col_lookup_assign_eq. }
  assert (Hs2 : col_lookup "Ship Date" (cols F2) = Some (date_cells ls))
    by apply col_lookup_assign_eq.
  rewrite (bind_ok _ _ _ _ _ (date_features_run h F2 lo ls Ho2 Hs2 HlenO HlenS)).
  unfold mret, M_ret. f_equal. f_equal. f_equal.
  unfold enrich, ship_days_cells, derived_ship_days. rewrite HO, HS.
  cbv zeta.
  destruct (isna_any _); unfold with_column, F2; simpl;
    [by rewrite col_assign_twice | done].
Qed.

(** When one of the two parsed columns is of another dtype, lines 39-44
    are what pandas makes of them: the function raises what pandas raises
    there, or returns the frame as pandas leaves it. *)
Lemma add_feature_engineering_other (h : heap) r df od sd po ps :
  h !! r = Some df →
  col_lookup "Order Date" (cols df) = Some od →
  col_lookup "Ship Date" (cols df) = Some sd →
  to_datetime od = inr po → to_datetime sd = inr ps →
  length (parsed_cells po) = index_len df →
  length (parsed_cells ps) = index_len df →
  ¬ (∃ lo ls, po = Naive lo ∧ ps = Naive ls) →
  add_feature_engineering to_datetime set_order other_dtypes r h
  = let F2 := with_column (with_column df "Order Date" (parsed_cells po))
                          "Ship Date" (parsed_cells ps) in
    let res := other_dtypes po ps F2 in
    (match res.1 with inl e => inl e | inr _ => inr (length h) end, h ++ [res.2]).
Proof.
  intros Hr Hod Hsd Hpo Hps HlenO HlenS Hother.
  rewrite (add_feature_engineering_parsed h r df od sd po ps Hr Hod Hsd Hpo Hps
             HlenO HlenS).
  cbv zeta.
  set (F2 := with_column (with_column df "Order Date" (parsed_cells po))
                         "Ship Date" (parsed_cells ps)).
  assert (Hrun : date_features_other other_dtypes po ps (length h) (h ++ [F2])
                 = ((other_dtypes po ps F2).1, h ++ [(other_dtypes po ps F2).2])).
  { unfold date_features_other. rewrite lookup_fresh. by rewrite insert_fresh. }
  destruct po as [lo|co], ps as [ls|cs];
    [exfalso; apply Hother; by exists lo, ls | ..];
    unfold mbind, M_bind; rewrite Hrun;
    by destruct (other_dtypes _ _ F2) as [[e|[]] f'].
Qed.

(** Without one of the date columns the function raises at line 34, having
    only made its private copy. *)
Lemma add_feature_engineering_raises (h : heap) r df :
  h !! r = Some df →
  ¬ ("Order Date" ∈ columns df ∧ "Ship Date" ∈ columns df) →
  add_feature_engineering to_datetime set_order other_dtypes r h
  = (inl (ValueError ("Kolom wajib tidak ada: "
                      +:+ String.concat ", "
                            (set_order (filter (λ c, c ∉ columns df) needed_cols)))),
     h ++ [df]).
Proof.
  intros Hr Hmiss. unfold add_feature_engineering.
  rewrite (bind_ok _ _ _ _ _ (df_copy_run _ _ _ Hr)).
  rewrite (bind_ok _ _ _ _ _ (df_columns_run _ _ _ (lookup_fresh h df))).
  assert (Hall : forallb (λ c, bool_decide (c ∈ columns df)) needed_cols = false).
  { simpl. rewrite andb_true_r. apply andb_false_iff.
    rewrite !bool_decide_eq_false.
    destruct (decide ("Order Date" ∈ columns df)); [right | left]; tauto. }
  rewrite Hall. simpl negb. cbv iota.
  by apply bind_err.
Qed.






Lemma enrich_ship_days df :
  col_lookup "ShipDays" (cols (enrich to_datetime df))
  = Some (ship_days_cells to_datetime df).
Proof. apply col_lookup_assign_eq. Qed.

End EnrichmentRuns.

(** ** Feature engineering: the statements of the specification *)

Section EnrichmentClaims.

Variable to_datetime : list cell → exn + parsed.
Variable set_order : list string → list string.
Variable other_dtypes : parsed → parsed → DataFrame → (exn + unit) * DataFrame.
Hypothesis to_datetime_length :
  ∀ s l, to_datetime s = inr (Naive l) → length l = length s.
Hypothesis set_order_perm : ∀ l, set_order l ≡ₚ l.

(** C7.  On a raw table that lacks "Order Date" or "Ship Date" the
    enrichment raises the error of line 34, whose message names every
    missing column; no table is returned, and the store holds nothing new
    but the untouched private copy of the input. *)
Theorem enrichment_rejects_missing_columns (h : heap) r df :
  h !! r = Some df →
  "Order Date" ∉ columns df ∨ "Ship Date" ∉ columns df →
  ∃ msg,
    add_feature_engineering to_datetime set_order other_dtypes r h
    = (inl (ValueError msg), h ++ [df])
    ∧ ∀ c, c ∈ needed_cols → c ∉ columns df → mentions msg c.
Proof.
  intros Hr Hmiss. eexists. split.
  - apply add_feature_engineering_raises; [done | tauto].
  - intros c Hc Hnot. apply mentions_prefixed, concat_mentions.
    rewrite set_order_perm. by apply list_elem_of_filter.
Qed.



(** C3, as the code has it.  When both date columns parse as
    timezone-free dates and every derived day count is missing, the
    enrichment raises nothing: it returns a table with the input's row
    count whose ShipDays cells are all missing. *)
Theorem enrichment_keeps_all_missing (h : heap) r df :
  h !! r = Some df → wf_frame df →
  "Order Date" ∈ columns df → "Ship Date" ∈ columns df →
  dates_parse to_datetime df →
  Forall (λ o, o = None) (derived_ship_days to_datetime df) →
  ∃ out,
    add_feature_engineering to_datetime set_order other_dtypes r h
    = (inr (length h), h ++ [out])
    ∧ index_len out = index_len df
    ∧ col_lookup "ShipDays" (cols out) = Some (replicate (index_len df) Missing).
Proof.
  intros Hr Hwf Ho Hs Hp Hall.
  exists (enrich to_datetime df). split_and!.
  - by apply add_feature_engineering_run.
  - done.
  - rewrite enrich_ship_days. f_equal. unfold ship_days_cells.
    rewrite numeric_cells_all_missing by done.
    rewrite length_derived_ship_days by done.
    destruct (index_len df) as [|n]; [done|].
    rewrite isna_any_replicate. unfold series_median.
    by rewrite numbers_of_missing.
Qed.

End EnrichmentClaims.

(** ** Feature selection: the statements of the specification *)

Lemma col_lookup_filter (P : string → Prop) `{∀ c, Decision (P c)} c
      (cs : list (string * list cell)) :
  P c → col_lookup c (filter (λ p, P p.1) cs) = col_lookup c cs.
Proof.
  intros HP. induction cs as [|[n v] cs IH]; [done|].
  rewrite filter_cons; simpl. destruct (String.eqb_spec n c) as [->|Hne].
  - rewrite decide_True by done. simpl. by rewrite String.eqb_refl.
  - case_decide; simpl; [|done]. by destruct (String.eqb_spec n c).
Qed.

Lemma filter_names (P : string → Prop) `{∀ c, Decision (P c)}
      (cs : list (string * list cell)) :
  (filter (λ p, P p.1) cs).*1 = filter P cs.*1.
Proof.
  induction cs as [|[n v] cs IH]; [done|].
  rewrite fmap_cons, !filter_cons; simpl. case_decide; csimpl; by rewrite IH.
Qed.

(** Removing the one column of a given label from a frame with unique
    labels takes exactly that column out and keeps the rest in place. *)
Lemma filter_single_column t (cs : list (string * list cell)) :
  NoDup cs.*1 → t ∈ cs.*1 →
  ∃ l1 v l2, cs = l1 ++ (t, v) :: l2
             ∧ filter (λ p : string * list cell, ¬ (p.1 ∈ @nil string ∨ p.1 = t)) cs
               = l1 ++ l2.
Proof.
  induction cs as [|[n v] cs IH]; csimpl; [by intros _ ?%elem_of_nil|].
  intros [Hn Hnd]%NoDup_cons Hin.
  rewrite filter_cons; simpl.
  destruct (decide (n = t)) as [->|Hne].
  - exists [], v, cs. split; [done|].
    rewrite decide_False by tauto. simpl.
    apply filter_all. intros [m w] Hin' [Hm|Hm]; [by apply elem_of_nil in Hm|].
    apply Hn, list_elem_of_fmap. exists (m, w). by simpl in *.
  - apply elem_of_cons in Hin as [?|Hin]; [congruence|].
    destruct (IH Hnd Hin) as (l1 & w & l2 & -> & Hf).
    exists ((n, v) :: l1), w, l2. split; [done|].
    rewrite decide_True; [simpl; f_equal; exact Hf|].
    intros [Hm|Hm]; [by apply elem_of_nil in Hm|done].
Qed.

(** C4.  [prepare_features] returns a frame that is the enriched table
    without the columns labelled in [drop_cols] and without the column
    labelled [target_col]: labels that the table does not have are passed
    over, the remaining columns keep their order and their cells, and no
    frame that was in the store changes.  With no [drop_cols], on a table
    that has the target column (under unique labels), the result is the
    table with that one column taken out. *)
Theorem prepare_features_removes_named (h : heap) r df dc t :
  h !! r = Some df →
  ∃ r' h' out,
    prepare_features r dc t h = (inr r', h')
    ∧ h `prefix_of` h'
    ∧ h' !! r' = Some out
    ∧ index_len out = index_len df
    ∧ cols out = filter (λ p : string * list cell, ¬ (p.1 ∈ dc ∨ p.1 = t)) (cols df)
    ∧ (∀ c, c ∈ columns out ↔ c ∈ columns df ∧ ¬ (c ∈ dc ∨ c = t))
    ∧ (∀ c, c ∉ dc → c ≠ t → col_lookup c (cols out) = col_lookup c (cols df))
    ∧ (dc = [] → NoDup (columns df) → t ∈ columns df →
       ∃ l1 v l2, cols df = l1 ++ (t, v) :: l2 ∧ cols out = l1 ++ l2).
Proof.
  intros Hr.
  destruct (prepare_features_run h r df dc t Hr) as (r' & h' & Hrun & Hpre & Hlk).
  exists r', h', (select df dc t). split_and!; try done.
  - intros c. unfold columns, select; simpl.
    pose proof (filter_names (λ n, ¬ (n ∈ dc ∨ n = t)) (cols df)) as E.
    simpl in E. rewrite E, list_elem_of_filter. tauto.
  - intros c Hdc Ht. unfold select; simpl.
    pose proof (col_lookup_filter (λ n, ¬ (n ∈ dc ∨ n = t)) c (cols df)) as E.
    simpl in E. apply E. tauto.
  - intros -> Hnd Hin. by apply filter_single_column.
Qed.

(** C9.  The frame [prepare_features] returns is determined by the contents
    of the table it is given and by [drop_cols] and [target_col]: in any two
    stores where the argument holds the same table the two calls return
    equal frames, and neither call changes the table it was given, so a
    second call after the first sees the same input and returns an equal
    frame again. *)
Theorem prepare_features_deterministic (h1 h2 : heap) r1 r2 df dc t :
  h1 !! r1 = Some df → h2 !! r2 = Some df →
  ∃ o1 h1' o2 h2' out,
    prepare_features r1 dc t h1 = (inr o1, h1')
    ∧ prepare_features r2 dc t h2 = (inr o2, h2')
    ∧ h1' !! o1 = Some out ∧ h2' !! o2 = Some out
    ∧ h1' !! r1 = Some df ∧ h2' !! r2 = Some df
    ∧ ∃ o3 h3, prepare_features r1 dc t h1' = (inr o3, h3)
               ∧ h3 !! o3 = Some out ∧ h3 !! o1 = Some out.
Proof.
  intros Hr1 Hr2.
  destruct (prepare_features_run h1 r1 df dc t Hr1) as (o1 & h1' & Hrun1 & Hpre1 & Hlk1).
  destruct (prepare_features_run h2 r2 df dc t Hr2) as (o2 & h2' & Hrun2 & Hpre2 & Hlk2).
  pose proof (prefix_lookup_Some _ _ _ _ Hr1 Hpre1) as Hr1'.
  destruct (prepare_features_run h1' r1 df dc t Hr1') as (o3 & h3 & Hrun3 & Hpre3 & Hlk3).
  exists o1, h1', o2, h2', (select df dc t). split_and!; try done.
  - by eapply prefix_lookup_Some.
  - exists o3, h3. split_and!; [done | done | by eapply prefix_lookup_Some].
Qed.

(** C10.  When [target_col] is also listed in [drop_cols], the loop over
    [drop_cols] already leaves a frame without that label, so the guard of
    line 56 is false and the last step does nothing: the function returns,
    without error, the very frame the loop produced, in the store the loop
    left.  That store holds, besides the private copy, one new frame for
    each distinct listed label that the table has: each such column, the
    target among them, is dropped once. *)
Theorem prepare_features_target_listed (h : heap) r df dc t :
  h !! r = Some df → t ∈ dc →
  ∃ r' h' out,
    (df ← df_copy r; for_in dc drop_if_present df) h = (inr r', h')
    ∧ prepare_features r dc t h = (inr r', h')
    ∧ h' !! r' = Some out
    ∧ ¬ (t ∈ columns out)
    ∧ cols out = filter (λ p : string * list cell, p.1 ∉ dc) (cols df)
    ∧ length h'
      = (length h + 1 + length (filter (λ c, c ∈ columns df) (remove_dups dc)))%nat.
Proof.
  intros Hr Ht. rewrite prepare_features_unfold.
  rewrite !(bind_ok _ _ _ _ _ (df_copy_run _ _ _ Hr)).
  destruct (drop_loop_run dc (h ++ [df]) (length h) df (lookup_fresh h df))
    as (r1 & h1 & Hrun1 & Hpre1 & Hlk1).
  assert (Hnot : t ∉ columns (mkFrame (index_len df)
                    (filter (λ p : string * list cell, p.1 ∉ dc) (cols df)))).
  { unfold columns; simpl.
    pose proof (filter_names (λ n, n ∉ dc) (cols df)) as E.
    simpl in E. rewrite E, list_elem_of_filter. tauto. }
  destruct (drop_if_present_run h1 r1 _ t Hlk1) as (r2 & h2 & Hrun2 & _ & _ & Hsame).
  destruct (Hsame Hnot) as [-> ->].
  exists r1, h1, (mkFrame (index_len df)
                    (filter (λ p : string * list cell, p.1 ∉ dc) (cols df))).
  split_and!; try done.
  - by rewrite (bind_ok _ _ _ _ _ Hrun1).
  - rewrite (drop_loop_store dc _ _ df _ _ (lookup_fresh h df) Hrun1).
    rewrite length_app. simpl. lia.
Qed.

(** ** The prediction blocks *)






Section PredictionClaims.

Variable to_datetime : list cell → exn + parsed.
Variable set_order : list string → list string.
Variable other_dtypes : parsed → parsed → DataFrame → (exn + unit) * DataFrame.
Hypothesis to_datetime_length :
  ∀ s l, to_datetime s = inr (Naive l) → length l = length s.





End PredictionClaims.

(** ** Loading the dataset *)

Section LoadingClaims.

Variable parse_csv : encoding → string → exn + DataFrame.

Lemma read_csv_file (fs : filesystem) p enc bytes (h : heap) :
  fs p = Some (File bytes) →
  read_csv parse_csv fs p enc h
  = match parse_csv enc bytes with
    | inr df => (inr (length h), h ++ [df])
    | inl e => (inl e, h)
    end.
Proof.
  intros Hp. unfold read_csv. rewrite Hp.
  unfold mbind, M_bind. rewrite lift_run. by destruct (parse_csv enc bytes).
Qed.

(** C8, as the code has it.  A path that names nothing raises the error of
    line 19 and nothing is read.  A file is first read as Latin-1, and the
    table of that reading is returned whenever it succeeds, whatever a
    UTF-8 reading would give; only when the Latin-1 reading fails is the
    file read again as UTF-8, and then the outcome of the UTF-8 reading,
    a table or its error, is the outcome of the load.  A path that exists
    but is no file fails in both readings. *)
Theorem load_dataset_tries_latin1_first (fs : filesystem) path (h : heap) :
  (fs path = None →
   load_dataset parse_csv fs path h
   = (inl (FileNotFoundError ("File dataset tidak ditemukan: " +:+ path)), h))
  ∧ (∀ bytes df,
       fs path = Some (File bytes) → parse_csv Latin1 bytes = inr df →
       load_dataset parse_csv fs path h = (inr (length h), h ++ [df]))
  ∧ (∀ bytes e,
       fs path = Some (File bytes) → parse_csv Latin1 bytes = inl e →
       load_dataset parse_csv fs path h
       = match parse_csv Utf8 bytes with
         | inr df => (inr (length h), h ++ [df])
         | inl e' => (inl e', h)
         end)
  ∧ (fs path = Some Directory →
     ∃ e, load_dataset parse_csv fs path h = (inl e, h)).
Proof.
  unfold load_dataset, try_except. split_and!.
  - intros ->. by rewrite bool_decide_eq_false_2 by (by intros [? ?]).
  - intros bytes df Hp Hl. rewrite Hp. rewrite bool_decide_eq_true_2 by done.
    change (negb true) with false. cbv beta iota.
    by rewrite (read_csv_file fs path Latin1 bytes h Hp), Hl.
  - intros bytes e Hp Hl. rewrite Hp. rewrite bool_decide_eq_true_2 by done.
    change (negb true) with false. cbv beta iota.
    rewrite (read_csv_file fs path Latin1 bytes h Hp), Hl.
    apply read_csv_file. by rewrite <- Hp.
  - intros Hp. rewrite Hp. rewrite bool_decide_eq_true_2 by done.
    change (negb true) with false. cbv beta iota.
    unfold read_csv. rewrite Hp. by eexists.
Qed.

End LoadingClaims.

(** ** The statements at work on the example tables *)

Ltac by_computation :=
  match goal with
  | |- ?P => apply (bool_decide_unpack P); vm_compute; exact I
  end.

Lemma to_datetime_iso_length s l :
  to_datetime_iso s = inr (Naive l) → length l = length s.
Proof. intros [= <-]. apply length_map. Qed.

Lemma to_datetime_iso_parses df : dates_parse to_datetime_iso df.
Proof. split; eexists; reflexivity. Qed.

Lemma listing_order_perm (l : list string) : id l ≡ₚ l.
Proof. reflexivity. Qed.

Lemma orders3_wf : wf_frame orders3.
Proof. split; [by_computation | repeat constructor]. Qed.

Lemma orders_unshipped_wf : wf_frame orders_unshipped.
Proof. split; [by_computation | repeat constructor]. Qed.




(** Scenario 1 of the specification: day counts 5 and 2, the third filled
    with their median 3.5; months 1, 2, 3. *)
Example enrichment_scenario_1 :
  ∃ out, add_feature_engineering to_datetime_iso id no_other_dtypes 0%nat [orders3]
         = (inr 1%nat, [orders3; out])
         ∧ col_lookup "ShipDays" (cols out)
           = Some [VFloat (inject_Z 5); VFloat (inject_Z 2); VFloat (Qmake 7 2)]
         ∧ col_lookup "OrderMonth" (cols out) = Some [VInt 1; VInt 2; VInt 3]
         ∧ col_lookup "OrderYear" (cols out) = Some [VInt 2023; VInt 2023; VInt 2023].
Proof. eexists. split_and!; vm_compute; reflexivity. Qed.

Lemma enrichment_rejects_missing_columns_witness :
  ∃ msg,
    add_feature_engineering to_datetime_iso id no_other_dtypes 0%nat [orders_no_ship_date]
    = (inl (ValueError msg), [orders_no_ship_date; orders_no_ship_date])
    ∧ mentions msg "Ship Date".
Proof.
  assert (Hmiss : "Order Date" ∉ columns orders_no_ship_date
                  ∨ "Ship Date" ∉ columns orders_no_ship_date)
    by (right; by_computation).
  destruct (enrichment_rejects_missing_columns to_datetime_iso id no_other_dtypes listing_order_perm
              [orders_no_ship_date] 0%nat orders_no_ship_date eq_refl Hmiss)
    as (msg & Hrun & Hnames).
  exists msg. split; [exact Hrun|].
  apply Hnames; by_computation.
Defined.



Lemma enrichment_keeps_all_missing_witness :
  ∃ out,
    add_feature_engineering to_datetime_iso id no_other_dtypes 0%nat [orders_unshipped]
    = (inr 1%nat, [orders_unshipped; out])
    ∧ index_len out = 1%nat
    ∧ col_lookup "ShipDays" (cols out) = Some [Missing].
Proof.
  apply (enrichment_keeps_all_missing to_datetime_iso id no_other_dtypes to_datetime_iso_length
           [orders_unshipped] 0%nat orders_unshipped eq_refl orders_unshipped_wf).
  - by_computation.
  - by_computation.
  - apply to_datetime_iso_parses.
  - by repeat constructor.
Defined.


(** With every day count missing the enrichment raises nothing: it returns
    a table whose ShipDays cell is missing. *)
Lemma enrichment_returns_missing_ship_days :
  wf_frame orders_unshipped
  ∧ "Order Date" ∈ columns orders_unshipped
  ∧ "Ship Date" ∈ columns orders_unshipped
  ∧ Forall (λ o, o = None) (derived_ship_days to_datetime_iso orders_unshipped)
  ∧ ∃ out,
      add_feature_engineering to_datetime_iso id no_other_dtypes 0%nat [orders_unshipped]
      = (inr 1%nat, [orders_unshipped; out])
      ∧ col_lookup "ShipDays" (cols out) = Some [Missing].
Proof.
  split_and!; [apply orders_unshipped_wf | by_computation | by_computation
               | by repeat constructor | ].
  eexists. split; vm_compute; reflexivity.
Qed.

Lemma prepare_features_removes_named_witness :
  ∃ r' h' out,
    prepare_features 0%nat ["Row ID"; "Customer Name"; "Segment"] "Segment" [orders3]
    = (inr r', h')
    ∧ h' !! r' = Some out
    ∧ cols out = filter (λ p : string * list cell,
                           ¬ (p.1 ∈ ["Row ID"; "Customer Name"; "Segment"] ∨ p.1 = "Segment"))
                        (cols orders3).
Proof.
  destruct (prepare_features_removes_named [orders3] 0%nat orders3
              ["Row ID"; "Customer Name"; "Segment"] "Segment" eq_refl)
    as (r' & h' & out & Hrun & _ & Hout & _ & Hcols & _).
  by exists r', h', out.
Defined.

(** The fourth property of section 8: no drop columns, target "Segment". *)
Example prepare_features_drops_target_only :
  ∃ h', prepare_features 0%nat [] "Segment" [orders3]
        = (inr 2%nat, h')
        ∧ (columns <$> h' !! 2%nat) = Some ["Row ID"; "Order Date"; "Ship Date"; "Sales"]
        ∧ h' !! 0%nat = Some orders3.
Proof. eexists. split_and!; vm_compute; reflexivity. Qed.

Lemma prepare_features_deterministic_witness :
  ∃ o1 h1 o2 h2 out,
    prepare_features 0%nat ["Row ID"] "Sales" [orders3] = (inr o1, h1)
    ∧ prepare_features 1%nat ["Row ID"] "Sales" [orders_unshipped; orders3] = (inr o2, h2)
    ∧ h1 !! o1 = Some out ∧ h2 !! o2 = Some out.
Proof.
  destruct (prepare_features_deterministic [orders3] [orders_unshipped; orders3]
              0%nat 1%nat orders3 ["Row ID"] "Sales" eq_refl eq_refl)
    as (o1 & h1 & o2 & h2 & out & Hrun1 & Hrun2 & Hout1 & Hout2 & _).
  by exists o1, h1, o2, h2, out.
Defined.

Lemma prepare_features_target_listed_witness :
  ∃ r' h' out,
    (df ← df_copy 0%nat; for_in ["Row ID"; "Segment"; "Segment"] drop_if_present df)
      [orders3]
    = (inr r', h')
    ∧ prepare_features 0%nat ["Row ID"; "Segment"; "Segment"] "Segment" [orders3]
      = (inr r', h')
    ∧ h' !! r' = Some out
    ∧ ¬ ("Segment" ∈ columns out)
    ∧ length h' = 4%nat.
Proof.
  assert (Hin : "Segment" ∈ ["Row ID"; "Segment"; "Segment"]) by by_computation.
  destruct (prepare_features_target_listed [orders3] 0%nat orders3
              ["Row ID"; "Segment"; "Segment"] "Segment" eq_refl Hin)
    as (r' & h' & out & Hloop & Hrun & Hout & Hnot & _ & Hlen).
  by exists r', h', out.
Defined.

(** Scenario 2 of the specification, on three rows: every row is predicted
    "Consumer" and the raw columns are as they were. *)
Example prediction_scenario_2 :
  ∃ o h' out,
    predict_request to_datetime_iso id no_other_dtypes KlasifikasiSegment 0%nat constant_classifier [orders3]
    = (inr o, h')
    ∧ h' !! o = Some out
    ∧ cols out = cols orders3
                 ++ [("Predicted Segment", [VStr "Consumer"; VStr "Consumer"; VStr "Consumer"])]
    ∧ h' !! 0%nat = Some orders3.
Proof. eexists _, _, _. split_and!; vm_compute; reflexivity. Qed.

(** Scenario 3: the regressor's values appear under "Predicted Sales" in row
    order. *)
Example prediction_scenario_3 :
  ∃ o h' out,
    predict_request to_datetime_iso id no_other_dtypes RegresiSales 0%nat row_number_regressor [orders3]
    = (inr o, h')
    ∧ h' !! o = Some out
    ∧ col_lookup "Predicted Sales" (cols out)
      = Some [VFloat (inject_Z 0); VFloat (inject_Z 1); VFloat (inject_Z 2)].
Proof. eexists _, _, _. split_and!; vm_compute; reflexivity. Qed.





Example short_answer_is_refused :
  (predict_request to_datetime_iso id no_other_dtypes KlasifikasiSegment 0%nat short_classifier [orders3]).1
  = inl (ValueError "Length of values (2) does not match length of index (3)").
Proof. vm_compute. reflexivity. Qed.

(** The file reads as UTF-8, and the load does not return that reading: it
    returns the Latin-1 reading, in which the accented letter has become two
    characters. *)
Lemma load_dataset_prefers_latin1 :
  disk "data.csv" = Some (File accented_file)
  ∧ ∃ as_utf8 loaded,
      parse_csv_plain Utf8 accented_file = inr as_utf8
      ∧ load_dataset parse_csv_plain disk "data.csv" [] = (inr 0%nat, [loaded])
      ∧ parse_csv_plain Latin1 accented_file = inr loaded
      ∧ loaded ≠ as_utf8
      ∧ cols as_utf8
        = [("Name", [VStr (String (byte_of 195) (String (byte_of 169) ""))])]
      ∧ cols loaded
        = [("Name", [VStr (String (byte_of 195) (String (byte_of 131)
                          (String (byte_of 194) (String (byte_of 169) ""))))])].
Proof.
  split; [reflexivity|].
  eexists _, _. split_and!; [vm_compute; reflexivity .. | | | ].
  - vm_compute. discriminate.
  - vm_compute. reflexivity.
  - vm_compute. reflexivity.
Qed.

Lemma load_dataset_tries_latin1_first_witness :
  load_dataset parse_csv_plain disk "missing.csv" []
  = (inl (FileNotFoundError "File dataset tidak ditemukan: missing.csv"), [])
  ∧ ∃ df, load_dataset parse_csv_plain disk "data.csv" [] = (inr 0%nat, [df]).
Proof.
  destruct (load_dataset_tries_latin1_first parse_csv_plain disk "missing.csv" [])
    as (Hmissing & _).
  destruct (load_dataset_tries_latin1_first parse_csv_plain disk "data.csv" [])
    as (_ & Hlatin1 & _).
  split.
  - apply Hmissing. reflexivity.
  - eexists. apply (Hlatin1 accented_file); [reflexivity | vm_compute; reflexivity].
Defined.

(** * Further properties of the pipeline *)

(** ** The median lies between two of the values *)



(** ** More on the columns of the enriched table *)








Section EnrichmentExtras.

Variable to_datetime : list cell → exn + parsed.
Variable set_order : list string → list string.
Variable other_dtypes : parsed → parsed → DataFrame → (exn + unit) * DataFrame.
Hypothesis to_datetime_length :
  ∀ s l, to_datetime s = inr (Naive l) → length l = length s.













End EnrichmentExtras.

(** ** More on the selection *)

Lemma select_columns df dc t c :
  c ∈ columns (select df dc t) ↔ c ∈ columns df ∧ ¬ (c ∈ dc ∨ c = t).
Proof.
  unfold columns, select; simpl.
  pose proof (filter_names (λ n, ¬ (n ∈ dc ∨ n = t)) (cols df)) as E.
  simpl in E. rewrite E, list_elem_of_filter. tauto.
Qed.



Lemma select_select df dc t : select (select df dc t) dc t = select df dc t.
Proof.
  unfold select; simpl. f_equal.
  rewrite list_filter_filter. apply list_filter_iff. intros p. tauto.
Qed.

Lemma select_ext df dc1 dc2 t :
  (∀ c, c ∈ dc1 ↔ c ∈ dc2) → select df dc1 t = select df dc2 t.
Proof.
  intros Hdc. unfold select. f_equal. apply list_filter_iff.
  intros p. by rewrite (Hdc p.1).
Qed.

Lemma filter_none {A} (P : A → Prop) `{∀ x, Decision (P x)} (l : list A) :
  (∀ x, x ∈ l → ¬ P x) → filter P l = [].
Proof.
  intros HP. induction l as [|x l IH]; [done|].
  rewrite filter_cons_False by (apply HP; left).
  apply IH. intros y Hy. apply HP. by right.
Qed.

(** The frames [prepare_features] creates: its copy, one frame for each
    distinct label of [dc] that the table has, and one more when the target
    is in the table and not in [dc]. *)
Lemma prepare_features_store (h : heap) r df dc t r' h' :
  h !! r = Some df →
  prepare_features r dc t h = (inr r', h') →
  length h'
  = (length h + 1 + length (filter (λ c, c ∈ columns df) (remove_dups dc))
     + (if bool_decide (t ∈ columns df ∧ t ∉ dc) then 1 else 0))%nat.
Proof.
  intros Hr. rewrite prepare_features_unfold.
  rewrite (bind_ok _ _ _ _ _ (df_copy_run _ _ _ Hr)).
  destruct (drop_loop_run dc (h ++ [df]) (length h) df (lookup_fresh h df))
    as (r1 & h1 & Hrun1 & _ & Hlk1).
  rewrite (bind_ok _ _ _ _ _ Hrun1).
  pose proof (drop_loop_store dc _ _ df _ _ (lookup_fresh h df) Hrun1) as Hlen1.
  pose proof (drop_if_present_store h1 r1 _ t Hlk1) as Hlen2.
  destruct (drop_if_present t r1 h1) as [[e|r2] h2] eqn:Hrun2; [|].
  { destruct (drop_if_present_run h1 r1 _ t Hlk1) as (? & ? & Hok & _). congruence. }
  intros [= <- <-]. simpl in Hlen2. rewrite Hlen2, Hlen1, length_app. simpl.
  assert (Hiff : t ∈ columns (mkFrame (index_len df)
                     (filter (λ p : string * list cell, p.1 ∉ dc) (cols df)))
                 ↔ t ∈ columns df ∧ t ∉ dc).
  { unfold columns; simpl.
    pose proof (filter_names (λ n, n ∉ dc) (cols df)) as E.
    simpl in E. rewrite E, list_elem_of_filter. tauto. }
  rewrite (bool_decide_ext _ _ Hiff). lia.
Qed.

(** X7.  [prepare_features] is idempotent: called on its own result with
    the same arguments it returns an equal table, and that second call finds
    nothing to drop (it only makes its copy). *)
Theorem prepare_features_idempotent (h : heap) r df dc t :
  h !! r = Some df →
  ∃ r1 h1 r2 h2 out,
    prepare_features r dc t h = (inr r1, h1)
    ∧ prepare_features r1 dc t h1 = (inr r2, h2)
    ∧ h1 !! r1 = Some out ∧ h2 !! r2 = Some out
    ∧ length h2 = S (length h1).
Proof.
  intros Hr.
  destruct (prepare_features_run h r df dc t Hr) as (r1 & h1 & Hrun1 & _ & Hlk1).
  destruct (prepare_features_run h1 r1 _ dc t Hlk1) as (r2 & h2 & Hrun2 & _ & Hlk2).
  exists r1, h1, r2, h2, (select df dc t). split_and!; try done.
  - by rewrite Hlk2, select_select.
  - rewrite (prepare_features_store h1 r1 _ dc t r2 h2 Hlk1 Hrun2).
    rewrite filter_none.
    + rewrite bool_decide_eq_false_2; [simpl; lia|].
      rewrite select_columns. tauto.
    + intros c Hc. rewrite select_columns.
      intros [_ Hnot]. apply Hnot. left. by apply elem_of_remove_dups.
Qed.

(** X8.  Only the set of labels in [drop_cols] matters: two lists with the
    same elements, in any order and with any repetitions, give equal
    tables. *)
Theorem prepare_features_drop_cols_as_set (h : heap) r df dc1 dc2 t :
  h !! r = Some df →
  (∀ c, c ∈ dc1 ↔ c ∈ dc2) →
  ∃ r1 h1 r2 h2 out,
    prepare_features r dc1 t h = (inr r1, h1)
    ∧ prepare_features r dc2 t h = (inr r2, h2)
    ∧ h1 !! r1 = Some out ∧ h2 !! r2 = Some out.
Proof.
  intros Hr Hdc.
  destruct (prepare_features_run h r df dc1 t Hr) as (r1 & h1 & Hrun1 & _ & Hlk1).
  destruct (prepare_features_run h r df dc2 t Hr) as (r2 & h2 & Hrun2 & _ & Hlk2).
  exists r1, h1, r2, h2, (select df dc1 t). split_and!; try done.
  by rewrite Hlk2, (select_ext df dc1 dc2 t Hdc).
Qed.

(** ** Statements that touch the newest frame only *)

Lemma last_only_bind {A B} (m : M A) (k : A → M B) (h : heap) f :
  last_only m h f → (∀ a f', last_only (k a) h f') → last_only (m ≫= k) h f.
Proof.
  intros (res & f' & Hm) Hk. unfold last_only, mbind, M_bind. rewrite Hm.
  destruct res as [e|a]; [by eexists _, _|]. apply Hk.
Qed.

Lemma last_only_unchanged {A} (m : M A) (h : heap) f :
  (∀ h0, ∃ res, m h0 = (res, h0)) → last_only m h f.
Proof. intros Hm. destruct (Hm (h ++ [f])) as [res Hres]. by exists res, f. Qed.

Lemma last_only_getitem (h : heap) f c : last_only (df_getitem (length h) c) h f.
Proof.
  apply last_only_unchanged. intros h0.
  unfold df_getitem, deref, mbind, M_bind, mret, M_ret, raise.
  repeat case_match; simplify_eq; by eexists.
Qed.

Lemma last_only_setitem (h : heap) f c v : last_only (df_setitem (length h) c v) h f.
Proof.
  unfold last_only, df_setitem, deref, store, mbind, M_bind.
  rewrite lookup_fresh.
  destruct (_ && _); [rewrite insert_fresh; by eexists _, _|].
  destruct (decide _); [rewrite insert_fresh|]; by eexists _, _.
Qed.

Lemma last_only_dt_values (h : heap) f s : last_only (dt_values s) h f.
Proof.
  apply last_only_unchanged. intros h0. unfold dt_values.
  destruct (as_datetimes s); by eexists.
Qed.

Lemma last_only_ret {A} (a : A) (h : heap) f : last_only (mret a) h f.
Proof. by exists (inr a), f. Qed.

Lemma last_only_lift {A} (x : exn + A) (h : heap) f : last_only (lift x) h f.
Proof. by exists x, f. Qed.

Ltac last_only_steps :=
  repeat first
    [ apply last_only_getitem | apply last_only_setitem | apply last_only_dt_values
    | apply last_only_ret | apply last_only_lift
    | apply last_only_bind; [|intros ? ?] ].

Lemma last_only_date_features (h : heap) f : last_only (date_features (length h)) h f.
Proof.
  unfold date_features, dt_year, dt_month, sub_dt_days. last_only_steps.
  destruct (isna_any _); last_only_steps.
Qed.

Lemma last_only_assign (h : heap) f c a : last_only (df_assign (length h) c a) h f.
Proof.
  destruct a as [v|assign]; simpl; [apply last_only_setitem|].
  unfold last_only, deref, lift, store, mbind, M_bind. rewrite lookup_fresh.
  destruct (assign c f) as [e|f']; [by eexists _, _|].
  rewrite insert_fresh. by eexists _, _.
Qed.

Lemma last_only_other_dtypes
      (other_dtypes : parsed → parsed → DataFrame → (exn + unit) * DataFrame)
      po ps (h : heap) f :
  last_only (date_features_other other_dtypes po ps (length h)) h f.
Proof.
  unfold last_only, date_features_other. rewrite lookup_fresh, insert_fresh.
  by eexists _, _.
Qed.

Lemma last_only_to_bind {A} (m : M A) (k : A → M loc) (h : heap) f :
  last_only m h f → (∀ a f', last_only_to (k a) h f') → last_only_to (m ≫= k) h f.
Proof.
  intros (res & f' & Hm) Hk. unfold last_only_to, mbind, M_bind. rewrite Hm.
  destruct res as [e|a]; [|apply Hk].
  eexists _, _. split; [done|]. by intros r' [=].
Qed.

(** The enrichment, however it ends, leaves the frames that were there
    and one more; when it returns, it returns that one. *)
Lemma add_feature_engineering_store
      (to_datetime : list cell → exn + parsed) (set_order : list string → list string)
      (other_dtypes : parsed → parsed → DataFrame → (exn + unit) * DataFrame)
      (h : heap) r df :
  h !! r = Some df →
  ∃ res f,
    add_feature_engineering to_datetime set_order other_dtypes r h = (res, h ++ [f])
    ∧ ∀ r', res = inr r' → r' = length h.
Proof.
  intros Hr. unfold add_feature_engineering.
  rewrite (bind_ok _ _ _ _ _ (df_copy_run _ _ _ Hr)).
  rewrite (bind_ok _ _ _ _ _ (df_columns_run _ _ _ (lookup_fresh h df))).
  destruct (negb _).
  { eexists _, _. split; [by apply bind_err|]. by intros r' [=]. }
  rewrite (bind_ok _ _ _ tt _ eq_refl).
  change (last_only_to
            (od ← df_getitem (length h) "Order Date";
             order_date ← lift (to_datetime od);
             df_setitem (length h) "Order Date" (parsed_cells order_date);;
             sd ← df_getitem (length h) "Ship Date";
             ship_date ← lift (to_datetime sd);
             df_setitem (length h) "Ship Date" (parsed_cells ship_date);;
             match order_date, ship_date with
             | Naive _, Naive _ => date_features (length h)
             | _, _ => date_features_other other_dtypes order_date ship_date (length h)
             end;;
             mret (length h)) h df).
  apply last_only_to_bind; [apply last_only_getitem|]. intros od f1.
  apply last_only_to_bind; [apply last_only_lift|]. intros po f2.
  apply last_only_to_bind; [apply last_only_setitem|]. intros [] f3.
  apply last_only_to_bind; [apply last_only_getitem|]. intros sd f4.
  apply last_only_to_bind; [apply last_only_lift|]. intros ps f5.
  apply last_only_to_bind; [apply last_only_setitem|]. intros [] f6.
  apply last_only_to_bind.
  - destruct po, ps;
      first [apply last_only_date_features | apply last_only_other_dtypes].
  - intros [] f7. eexists _, _. split; [reflexivity|]. by intros r' [= <-].
Qed.

(** A prediction block, however it ends, leaves the frames that were
    there. *)
Lemma predict_block_store mode (h : heap) raw enr df E art res h' :
  h !! raw = Some df → h !! enr = Some E →
  predict_block mode raw enr art h = (res, h') → h `prefix_of` h'.
Proof.
  intros Hraw Henr. unfold predict_block.
  destruct (prepare_features_run h enr E (artifact_drop_cols art)
              (artifact_target_col art) Henr) as (x & h1 & Hrun & Hpre & Hx).
  rewrite (bind_ok _ _ _ _ _ Hrun).
  rewrite (bind_ok _ _ _ _ _ (deref_run _ _ _ Hx)).
  destruct (model_predict art _) as [e|a] eqn:Hp.
  { rewrite (bind_err _ _ _ e h1) by (by rewrite lift_run).
    by intros [= _ <-]. }
  rewrite (bind_ok _ _ _ a h1) by (by rewrite lift_run).
  pose proof (prefix_lookup_Some _ _ _ _ Hraw Hpre) as Hraw1.
  rewrite (bind_ok _ _ _ _ _ (df_copy_run _ _ _ Hraw1)).
  destruct (last_only_assign h1 df (predicted_label mode (artifact_target_col art)) a)
    as (res1 & f' & Ha).
  unfold mbind, M_bind. rewrite Ha.
  destruct res1 as [e|[]]; intros [= _ <-];
    (etrans; [exact Hpre | by apply prefix_app_r]).
Qed.

Section PipelineExtras.

Variable to_datetime : list cell → exn + parsed.
Variable set_order : list string → list string.
Variable other_dtypes : parsed → parsed → DataFrame → (exn + unit) * DataFrame.
Hypothesis to_datetime_length :
  ∀ s l, to_datetime s = inr (Naive l) → length l = length s.


(** X10.  Whatever a request ends in, a table or any error, every table
    that was in the store before it is still there, unchanged. *)
Theorem predict_request_keeps_store mode (h : heap) r df art res h' :
  h !! r = Some df → wf_frame df →
  predict_request to_datetime set_order other_dtypes mode r art h = (res, h') →
  h `prefix_of` h'.
Proof.
  intros Hr Hwf. unfold predict_request.
  destruct (add_feature_engineering_store to_datetime set_order other_dtypes h r df Hr)
    as (res1 & f & Hrun1 & Hloc).
  unfold mbind at 1, M_bind at 1. rewrite Hrun1.
  destruct res1 as [e|enr]; [intros [= _ <-]; by apply prefix_app_r|].
  rewrite (Hloc enr eq_refl).
  destruct (prepare_features_run (h ++ [f]) (length h) f (artifact_drop_cols art)
              (artifact_target_col art) (lookup_fresh h f))
    as (x & h1 & Hrun2 & Hpre & Hx).
  rewrite (bind_ok _ _ _ _ _ Hrun2).
  intros Hrun3.
  etrans; [by apply prefix_app_r|]. etrans; [exact Hpre|].
  eapply (predict_block_store mode h1 r (length h) df f art res h'); [| |exact Hrun3].
  - eapply prefix_lookup_Some; [|exact Hpre]. by apply lookup_app_l_Some.
  - eapply prefix_lookup_Some; [|exact Hpre]. apply lookup_fresh.
Qed.

End PipelineExtras.

(** The outcome of [load_dataset], by what the path names. *)
Lemma load_dataset_parts (parse_csv : encoding → string → exn + DataFrame)
      (fs : filesystem) path (h : heap) :
  (fs path = None →
   load_dataset parse_csv fs path h
   = (inl (FileNotFoundError ("File dataset tidak ditemukan: " +:+ path)), h))
  ∧ (∀ bytes, fs path = Some (File bytes) →
       load_dataset parse_csv fs path h
       = match parse_csv Latin1 bytes with
         | inr df => (inr (length h), h ++ [df])
         | inl _ => match parse_csv Utf8 bytes with
                    | inr df => (inr (length h), h ++ [df])
                    | inl e' => (inl e', h)
                    end
         end)
  ∧ (fs path = Some Directory →
     ∃ e, load_dataset parse_csv fs path h = (inl e, h)).
Proof.
  unfold load_dataset, try_except. split_and!.
  - intros ->. by rewrite bool_decide_eq_false_2 by (by intros [? ?]).
  - intros bytes Hp. rewrite Hp. rewrite bool_decide_eq_true_2 by done.
    change (negb true) with false. cbv beta iota.
    rewrite (read_csv_file parse_csv fs path Latin1 bytes h Hp).
    destruct (parse_csv Latin1 bytes); [|done].
    apply read_csv_file. by rewrite <- Hp.
  - intros Hp. rewrite Hp. rewrite bool_decide_eq_true_2 by done.
    change (negb true) with false. cbv beta iota.
    unfold read_csv. rewrite Hp. by eexists.
Qed.

Section LoadingExtras.

Variable parse_csv : encoding → string → exn + DataFrame.

(** X11.  A load that returns a table returns a fresh one, parsed from the
    bytes of a file at the path, and adds nothing else to the store; it is
    the UTF-8 reading only if the Latin-1 reading failed.  A load that
    fails leaves the store as it was. *)
Theorem load_dataset_outcome (fs : filesystem) path (h : heap) res h' :
  load_dataset parse_csv fs path h = (res, h') →
  match res with
  | inr r =>
      r = length h
      ∧ ∃ bytes df,
          fs path = Some (File bytes) ∧ h' = h ++ [df]
          ∧ (parse_csv Latin1 bytes = inr df
             ∨ ∃ e, parse_csv Latin1 bytes = inl e ∧ parse_csv Utf8 bytes = inr df)
  | inl _ => h' = h
  end.
Proof.
  destruct (load_dataset_parts parse_csv fs path h) as (Hnone & Hfile & Hdir).
  destruct (fs path) as [[bytes|]|] eqn:Hp.
  - rewrite (Hfile bytes eq_refl).
    destruct (parse_csv Latin1 bytes) as [e|df] eqn:Hl.
    + destruct (parse_csv Utf8 bytes) as [e'|df] eqn:Hu; intros [= <- <-]; [done|].
      split; [done|]. exists bytes, df. split_and!; [done | done |].
      right. by exists e.
    + intros [= <- <-]. split; [done|]. exists bytes, df. split_and!; auto.
  - destruct (Hdir eq_refl) as [e ->]. by intros [= <- <-].
  - rewrite (Hnone eq_refl). by intros [= <- <-].
Qed.

End LoadingExtras.

(** * The script *)

(** ** Running the script step by step *)

Lemma sbind_ok {A B} (m : Script A) (k : A → Script B) s a s' :
  m s = (inr a, s') → (m ≫= k) s = k a s'.
Proof. intros H. unfold mbind, Script_bind. by rewrite H. Qed.

Lemma sbind_halt {A B} (m : Script A) (k : A → Script B) s x s' :
  m s = (inl x, s') → (m ≫= k) s = (inl x, s').
Proof. intros H. unfold mbind, Script_bind. by rewrite H. Qed.

Lemma call_bind {B} f args (k : unit → Script B) (h : heap) (l : screen) :
  (call f args ≫= k) (h, l) = k tt (h, (f, args) :: l).
Proof. reflexivity. Qed.

Lemma call_run f args (h : heap) (l : screen) :
  call f args (h, l) = (inr tt, (h, (f, args) :: l)).
Proof. reflexivity. Qed.

Lemma run_ok {A} (m : M A) (h : heap) (l : screen) a h' :
  m h = (inr a, h') → run m (h, l) = (inr a, (h', l)).
Proof. intros H. unfold run. simpl. by rewrite H. Qed.

Lemma run_err {A} (m : M A) (h : heap) (l : screen) e h' :
  m h = (inl e, h') → run m (h, l) = (inl (Raised e), (h', l)).
Proof. intros H. unfold run. simpl. by rewrite H. Qed.

Lemma run_bind_ok {A B} (m : M A) (k : A → Script B) (h : heap) (l : screen) a h' :
  m h = (inr a, h') → (run m ≫= k) (h, l) = k a (h', l).
Proof. intros H. apply sbind_ok. by apply run_ok. Qed.

Lemma run_bind_err {A B} (m : M A) (k : A → Script B) (h : heap) (l : screen) e h' :
  m h = (inl e, h') → (run m ≫= k) (h, l) = (inl (Raised e), (h', l)).
Proof. intros H. apply sbind_halt. by apply run_err. Qed.

Lemma try_script_ok {A} (body : Script A) handler s a s' :
  body s = (inr a, s') → try_script body handler s = (inr a, s').
Proof. intros H. unfold try_script. by rewrite H. Qed.

Lemma try_script_raised {A} (body : Script A) handler s e s' :
  body s = (inl (Raised e), s') → try_script body handler s = handler e s'.
Proof. intros H. unfold try_script. by rewrite H. Qed.

(** ** The header, the dataset and the overview *)

Lemma header_block_run (h : heap) (l : screen) :
  header_block (h, l) = (inr tt, (h, header_calls ++ l)).
Proof. reflexivity. Qed.

Lemma overview_block_run inp (h : heap) (l : screen) r df :
  h !! r = Some df →
  overview_block inp r (h, l) = (inr tt, (h, overview_calls inp df ++ l)).
Proof.
  intros Hr. unfold overview_block.
  by rewrite (run_bind_ok _ _ _ _ _ _ (deref_run _ _ _ Hr)).
Qed.

Lemma load_block_ok w inp (h : heap) (l : screen) r h' :
  load_dataset (w_parse_csv w) (w_fs w) (in_csv_path inp) h = (inr r, h') →
  load_block w inp (h, l) = (inr r, (h', l)).
Proof. intros H. unfold load_block. apply try_script_ok. by apply run_ok. Qed.

Lemma load_block_fail w inp (h : heap) (l : screen) e h' :
  load_dataset (w_parse_csv w) (w_fs w) (in_csv_path inp) h = (inl e, h') →
  ∃ hint,
    load_block w inp (h, l)
    = (inl Stopped,
       (h', ("st.info", [AStr hint])
            :: ("st.error", [AStr ("❌ Gagal load dataset: " +:+ exn_str w e)]) :: l)).
Proof.
  intros H. unfold load_block. eexists.
  by rewrite (try_script_raised _ _ _ e (h', l)) by (by apply run_err).
Qed.

(** ** The feature engineering block *)


Section ScriptEnrichment.

Variable w : World.
Hypothesis to_datetime_length :
  ∀ s l, w_to_datetime w s = inr (Naive l) → length l = length s.




Lemma enrich_block_fail (h : heap) (l : screen) r df :
  h !! r = Some df →
  ¬ ("Order Date" ∈ columns df ∧ "Ship Date" ∈ columns df) →
  enrich_block w r (h, l)
  = (inl Stopped,
     (h ++ [df],
      ("st.error",
       [AStr ("❌ Feature engineering gagal: "
              +:+ "Kolom wajib tidak ada: "
              +:+ String.concat ", "
                    (w_set_order w (filter (λ c, c ∉ columns df) needed_cols)))])
      :: l)).
Proof.
  intros Hr Hmiss. unfold enrich_block.
  erewrite try_script_raised; cycle 1.
  { apply run_bind_err. by apply add_feature_engineering_raises. }
  reflexivity.
Qed.

End ScriptEnrichment.

(** ** The artifact and the button *)

Lemma dict_get_ok {A} key (a : A) (h : heap) : dict_get key (Some a) h = (inr a, h).
Proof. reflexivity. Qed.

Lemma dict_get_missing {A} key (h : heap) :
  dict_get key (@None A) h = (inl (KeyError key), h).
Proof. reflexivity. Qed.










(** ** The mode blocks up to the button *)



(** ** Whole runs *)

Lemma load_dataset_alloc (parse_csv : encoding → string → exn + DataFrame)
      (fs : filesystem) path (h : heap) r h' :
  load_dataset parse_csv fs path h = (inr r, h') →
  ∃ df, r = length h ∧ h' = h ++ [df].
Proof.
  destruct (load_dataset_parts parse_csv fs path h) as (Hnone & Hfile & Hdir).
  destruct (fs path) as [[bytes|]|] eqn:Hp.
  - rewrite (Hfile bytes eq_refl).
    destruct (parse_csv Latin1 bytes) as [e|df];
      [destruct (parse_csv Utf8 bytes) as [e'|df]|];
      intros [= <- <-]; by eexists.
  - by destruct (Hdir eq_refl) as [e ->].
  - by rewrite (Hnone eq_refl).
Qed.

Lemma load_dataset_error_store (parse_csv : encoding → string → exn + DataFrame)
      (fs : filesystem) path (h : heap) e h' :
  load_dataset parse_csv fs path h = (inl e, h') → h' = h.
Proof.
  destruct (load_dataset_parts parse_csv fs path h) as (Hnone & Hfile & Hdir).
  destruct (fs path) as [[bytes|]|] eqn:Hp.
  - rewrite (Hfile bytes eq_refl).
    destruct (parse_csv Latin1 bytes) as [e1|df];
      [destruct (parse_csv Utf8 bytes) as [e'|df]|];
      by intros [= <- <-].
  - destruct (Hdir eq_refl) as [e1 ->]. by intros [= <- <-].
  - rewrite (Hnone eq_refl). by intros [= <- <-].
Qed.

Section ScriptRuns.

Variable w : World.
Variable inp : Inputs.
Hypothesis to_datetime_length :
  ∀ s l, w_to_datetime w s = inr (Naive l) → length l = length s.


(** X12.  When the dataset cannot be loaded the run shows the header, the
    error with the text of the exception and the hint about the path, and
    stops there: no frame exists and nothing of the later blocks is shown. *)
Theorem script_dataset_error e h' :
  load_dataset (w_parse_csv w) (w_fs w) (in_csv_path inp) [] = (inl e, h') →
  run_script w inp
  = (inl Stopped,
     ([],
      ("st.info",
       [AStr "Pastikan CSV ada di folder yang sama dengan main.py, atau ubah path di sidebar."])
      :: ("st.error", [AStr ("❌ Gagal load dataset: " +:+ exn_str w e)])
      :: header_calls)).
Proof.
  intros Hload.
  pose proof (load_dataset_error_store _ _ _ _ _ _ Hload) as ->.
  unfold run_script, script.
  rewrite (sbind_ok _ _ _ _ _ (header_block_run [] [])).
  destruct (load_block_fail w inp [] (header_calls ++ []) e [] Hload) as [hint Hf].
  rewrite (sbind_halt _ _ _ _ _ Hf). rewrite app_nil_r.
  unfold load_block in Hf.
  rewrite (try_script_raised _ _ _ e ([], header_calls ++ [])) in Hf
    by (by apply run_err).
  by injection Hf as <-.
Qed.

(** X13.  When the loaded table lacks "Order Date" or "Ship Date" the run
    shows the header and the overview of the raw table, then the error
    naming the missing columns, and stops: no artifact is loaded, whatever
    the mode and the model paths.  The store holds the raw table and the
    copy the enrichment made of it. *)
Theorem script_missing_date_columns df :
  load_dataset (w_parse_csv w) (w_fs w) (in_csv_path inp) [] = (inr 0%nat, [df]) →
  ¬ ("Order Date" ∈ columns df ∧ "Ship Date" ∈ columns df) →
  run_script w inp
  = (inl Stopped,
     ([df; df],
      ("st.error",
       [AStr ("❌ Feature engineering gagal: "
              +:+ "Kolom wajib tidak ada: "
              +:+ String.concat ", "
                    (w_set_order w (filter (λ c, c ∉ columns df) needed_cols)))])
      :: overview_calls inp df ++ header_calls)).
Proof.
  intros Hload Hmiss. unfold run_script, script.
  rewrite (sbind_ok _ _ _ _ _ (header_block_run [] [])).
  rewrite (sbind_ok _ _ _ _ _ (load_block_ok w inp [] _ 0%nat [df] Hload)).
  rewrite (sbind_ok _ _ _ _ _ (overview_block_run inp [df] _ 0%nat df eq_refl)).
  rewrite (sbind_halt _ _ _ _ _
             (enrich_block_fail w [df] _ 0%nat df eq_refl Hmiss)).
  by rewrite app_nil_r.
Qed.





End ScriptRuns.

(** ** What a run does not depend on *)

Lemma sbind_ext {A B} (m m' : Script A) (k k' : A → Script B) s :
  m s = m' s → (∀ a s', k a s' = k' a s') → (m ≫= k) s = (m' ≫= k') s.
Proof.
  intros Hm Hk. unfold mbind, Script_bind. rewrite Hm.
  by destruct (m' s) as [[x|a] s'].
Qed.

(** X18.  Without a press of the button the model is never called: two
    worlds that differ only in the models inside their artifacts give the
    same run, frame for frame and call for call. *)
Theorem model_unused_without_button w w' inp :
  in_button inp = false →
  w_fs w' = w_fs w → w_parse_csv w' = w_parse_csv w →
  w_to_datetime w' = w_to_datetime w → w_set_order w' = w_set_order w →
  w_other_dtypes w' = w_other_dtypes w →
  w_repr w' = w_repr w → w_lower w' = w_lower w →
  (∀ p, match w_joblib_load w p, w_joblib_load w' p with
        | inl e, inl e' => e = e'
        | inr d, inr d' =>
            dict_drop_cols d' = dict_drop_cols d
            ∧ dict_target_col d' = dict_target_col d
            ∧ (dict_model d' = None ↔ dict_model d = None)
        | _, _ => False
        end) →
  run_script w' inp = run_script w inp.
Proof.
  destruct w as [fs pc td so od jl rp lw], w' as [fs' pc' td' so' od' jl' rp' lw'].
  destruct inp as [csv p1 p2 mode button]. simpl.
  intros -> -> -> -> -> -> -> -> Hjl.
  unfold run_script, script.
  apply sbind_ext; [reflexivity|]. intros [] s1.
  apply sbind_ext; [reflexivity|]. intros r s2.
  apply sbind_ext; [reflexivity|]. intros [] s3.
  apply sbind_ext; [reflexivity|]. intros enr [h4 l4].
  destruct mode; simpl.
  - specialize (Hjl p1).
    unfold segment_block, segment_artifact, load_artifact, try_script,
      mbind, Script_bind, run, call, st_stop; simpl.
    destruct (jl p1) as [e|[[m|] [dc|] [t|]]], (jl' p1) as [e'|[[m'|] [dc'|] [t'|]]];
      simpl in *; try done; try (by subst);
      destruct Hjl as (? & ? & Hm); simplify_eq; try done;
      try (by destruct Hm as [Hm1 Hm2]; (discriminate (Hm1 eq_refl))
                                        || (discriminate (Hm2 eq_refl))).
  - specialize (Hjl p2).
    unfold sales_block, sales_artifact, load_artifact, try_script,
      mbind, Script_bind, run, call, st_stop; simpl.
    destruct (jl p2) as [e|[[m|] [dc|] [t|]]], (jl' p2) as [e'|[[m'|] [dc'|] [t'|]]];
      simpl in *; try done; try (by subst);
      destruct Hjl as (? & ? & Hm); simplify_eq; try done;
      try (by destruct Hm as [Hm1 Hm2]; (discriminate (Hm1 eq_refl))
                                        || (discriminate (Hm2 eq_refl))).
Qed.

(** ** No exception escapes *)

Lemma try_script_catches {A} (body : Script A) handler s e :
  (∀ e0 s', (handler e0 s').1 ≠ inl (Raised e)) →
  (try_script body handler s).1 ≠ inl (Raised e).
Proof.
  intros Hh. unfold try_script.
  destruct (body s) as [[[|e0]|a] s'] eqn:Hb; simpl; [done | apply Hh | done].
Qed.

Lemma load_block_returns w inp (h : heap) (l : screen) r h' l' :
  load_block w inp (h, l) = (inr r, (h', l')) →
  ∃ df, r = length h ∧ h' = h ++ [df].
Proof.
  unfold load_block, try_script, run. simpl.
  destruct (load_dataset (w_parse_csv w) (w_fs w) (in_csv_path inp) h)
    as [[e|r0] h0] eqn:Hload; [done|].
  intros [= -> -> _]. by apply load_dataset_alloc in Hload.
Qed.

Lemma df_getitems_store r labels (h : heap) res h' :
  df_getitems r labels h = (res, h') → h' = h.
Proof.
  unfold df_getitems, deref, lift, mbind, M_bind.
  destruct (h !! r) as [df|]; [|by intros [= _ <-]].
  destruct (pick_columns labels (cols df)); by intros [= _ <-].
Qed.

Lemma df_getitem_store r c (h : heap) res h' :
  df_getitem r c h = (res, h') → h' = h.
Proof.
  unfold df_getitem, deref, mbind, M_bind.
  destruct (h !! r) as [df|]; [|by intros [= _ <-]].
  destruct (col_lookup c (cols df)); by intros [= _ <-].
Qed.

(** A feature engineering block that returns, returns a frame of the
    store. *)
Lemma enrich_block_returns w r (h : heap) (l : screen) enr h' l' :
  enrich_block w r (h, l) = (inr enr, (h', l')) → is_Some (h' !! enr).
Proof.
  unfold enrich_block, try_script.
  destruct (add_feature_engineering (w_to_datetime w) (w_set_order w) (w_other_dtypes w) r h)
    as [[e0|r1] h1] eqn:Hafe.
  { by rewrite (run_bind_err _ _ _ _ _ _ Hafe). }
  rewrite (run_bind_ok _ _ _ _ _ _ Hafe).
  destruct (h1 !! r1) as [E|] eqn:HE; cycle 1.
  { assert (df_columns r1 h1 = (inl (NameError "unbound frame"), h1)) as Hc.
    { unfold df_columns, deref, mbind, M_bind. by rewrite HE. }
    by rewrite (run_bind_err _ _ _ _ _ _ Hc). }
  rewrite (run_bind_ok _ _ _ _ _ _ (df_columns_run _ _ _ HE)).
  rewrite call_bind.
  match goal with
  | |- context [run (df_getitems r1 ?ls)] =>
      destruct (df_getitems r1 ls h1) as [[e1|shown] h2] eqn:Hg
  end.
  { by rewrite (run_bind_err _ _ _ _ _ _ Hg). }
  rewrite (run_bind_ok _ _ _ _ _ _ Hg).
  apply df_getitems_store in Hg as ->.
  rewrite !call_bind.
  destruct (df_getitem r1 "ShipDays" h1) as [[e2|v] h3] eqn:Hs.
  { by rewrite (run_bind_err _ _ _ _ _ _ Hs). }
  rewrite (run_bind_ok _ _ _ _ _ _ Hs).
  apply df_getitem_store in Hs as ->.
  rewrite call_bind. intros [= <- <- _]. by rewrite HE.
Qed.

Lemma segment_artifact_cases w inp (h : heap) (l : screen) :
  (∃ l', segment_artifact w inp (h, l) = (inl Stopped, (h, l')))
  ∨ (∃ art l', segment_artifact w inp (h, l) = (inr art, (h, l'))).
Proof.
  unfold segment_artifact, load_artifact, try_script, mbind, Script_bind,
    run, call, st_stop; simpl.
  destruct (w_joblib_load w (in_pkl_segment inp)) as [?|[[?|] [?|] [?|]]];
    simpl; eauto.
Qed.

Lemma sales_artifact_cases w inp (h : heap) (l : screen) :
  (∃ l', sales_artifact w inp (h, l) = (inl Stopped, (h, l')))
  ∨ (∃ art l', sales_artifact w inp (h, l) = (inr art, (h, l'))).
Proof.
  unfold sales_artifact, load_artifact, try_script, mbind, Script_bind,
    run, call, st_stop; simpl.
  destruct (w_joblib_load w (in_pkl_sales inp)) as [?|[[?|] [?|] [?|]]];
    simpl; eauto.
Qed.

(** X19.  No exception escapes the script.  A failure of the dataset load,
    of the feature engineering or of the artifact ends the run through
    [st.stop()]; a failure of the prediction is reported and the run ends
    normally; the statements outside the [try] blocks (the overview and the
    listing of the input columns) cannot fail on the frames they are
    given. *)
Theorem script_never_raises w inp e :
  (run_script w inp).1 ≠ inl (Raised e).
Proof.
  unfold run_script, script.
  rewrite (sbind_ok _ _ _ _ _ (header_block_run [] [])).
  destruct (load_block w inp ([], header_calls ++ [])) as [[x|r] [h2 l2]] eqn:Hlb.
  { rewrite (sbind_halt _ _ _ _ _ Hlb). simpl. intros [= ->].
    revert Hlb. unfold load_block. intros Hlb.
    eapply (try_script_catches _ _ _ e); [|by rewrite Hlb]. done. }
  rewrite (sbind_ok _ _ _ _ _ Hlb).
  apply load_block_returns in Hlb as (df & -> & ->).
  rewrite (sbind_ok _ _ _ _ _
             (overview_block_run inp ([] ++ [df]) l2 _ df (lookup_fresh [] df))).
  destruct (enrich_block w (length (@nil DataFrame)) ([] ++ [df], overview_calls inp df ++ l2))
    as [[x|enr] [h4 l4]] eqn:Heb.
  { rewrite (sbind_halt _ _ _ _ _ Heb). simpl. intros [= ->].
    revert Heb. unfold enrich_block. intros Heb.
    eapply (try_script_catches _ _ _ e); [|by rewrite Heb]. done. }
  rewrite (sbind_ok _ _ _ _ _ Heb).
  apply enrich_block_returns in Heb as [E HE].
  destruct (in_mode inp).
  - unfold segment_block. rewrite !call_bind.
    destruct (segment_artifact_cases w inp h4
                (("st.header", [AStr "🚀 Prediksi Segment (Klasifikasi)"])
                 :: ("st.markdown", [AStr "---"]) :: l4))
      as [[l5 Ha]|(art & l5 & Ha)].
    { by rewrite (sbind_halt _ _ _ _ _ Ha). }
    rewrite (sbind_ok _ _ _ _ _ Ha). rewrite call_bind.
    destruct (prepare_features_run h4 enr E (artifact_drop_cols art)
                (artifact_target_col art) HE) as (x & h5 & Hrun & Hpre & Hx).
    rewrite (run_bind_ok _ _ _ _ _ _ Hrun).
    rewrite (run_bind_ok _ _ _ _ _ _ (deref_run _ _ _ Hx)).
    rewrite !call_bind.
    destruct (in_button inp); [|done].
    unfold segment_predict. by apply try_script_catches.
  - unfold sales_block. rewrite !call_bind.
    destruct (sales_artifact_cases w inp h4
                (("st.header", [AStr "📈 Prediksi Sales (Regresi - Random Forest)"])
                 :: ("st.markdown", [AStr "---"]) :: l4))
      as [[l5 Ha]|(art & l5 & Ha)].
    { by rewrite (sbind_halt _ _ _ _ _ Ha). }
    rewrite (sbind_ok _ _ _ _ _ Ha). cbv zeta. rewrite !call_bind.
    destruct (prepare_features_run h4 enr E (artifact_drop_cols art)
                (artifact_target_col art) HE) as (x & h5 & Hrun & Hpre & Hx).
    rewrite (run_bind_ok _ _ _ _ _ _ Hrun).
    rewrite (run_bind_ok _ _ _ _ _ _ (deref_run _ _ _ Hx)).
    rewrite !call_bind.
    destruct (in_button inp); [|done].
    unfold sales_predict. by apply try_script_catches.
Qed.

(** ** The preview of the enriched table *)

Section ScriptPreview.

Variable w : World.
Hypothesis to_datetime_length :
  ∀ s l, w_to_datetime w s = inr (Naive l) → length l = length s.


End ScriptPreview.

(** * The further properties at work on the examples *)




Lemma undated_file_loads :
  load_dataset (w_parse_csv demo_world) (w_fs demo_world) "undated.csv" []
  = (inr 0%nat, [undated_as_text]).
Proof. vm_compute. reflexivity. Qed.







Lemma prepare_features_idempotent_witness :
  ∃ r1 h1 r2 h2 out,
    prepare_features 0%nat ["Row ID"; "Segment"] "Sales" [orders3] = (inr r1, h1)
    ∧ prepare_features r1 ["Row ID"; "Segment"] "Sales" h1 = (inr r2, h2)
    ∧ h1 !! r1 = Some out ∧ h2 !! r2 = Some out
    ∧ length h2 = S (length h1).
Proof.
  apply (prepare_features_idempotent [orders3] 0%nat orders3 ["Row ID"; "Segment"]
           "Sales" eq_refl).
Defined.

Lemma prepare_features_drop_cols_as_set_witness :
  ∃ r1 h1 r2 h2 out,
    prepare_features 0%nat ["Row ID"; "Segment"] "Sales" [orders3] = (inr r1, h1)
    ∧ prepare_features 0%nat ["Segment"; "Row ID"; "Segment"] "Sales" [orders3]
      = (inr r2, h2)
    ∧ h1 !! r1 = Some out ∧ h2 !! r2 = Some out.
Proof.
  apply (prepare_features_drop_cols_as_set [orders3] 0%nat orders3
           ["Row ID"; "Segment"] ["Segment"; "Row ID"; "Segment"] "Sales" eq_refl).
  intros c. rewrite !elem_of_cons, !elem_of_nil. tauto.
Defined.


Lemma predict_request_keeps_store_witness :
  [orders3] `prefix_of`
    (predict_request to_datetime_iso id no_other_dtypes KlasifikasiSegment 0%nat short_classifier
                     [orders3]).2.
Proof.
  apply (predict_request_keeps_store to_datetime_iso id no_other_dtypes
           KlasifikasiSegment [orders3] 0%nat orders3 short_classifier
           (predict_request to_datetime_iso id no_other_dtypes KlasifikasiSegment 0%nat short_classifier
                            [orders3]).1
           _ eq_refl orders3_wf).
  apply surjective_pairing.
Defined.

Lemma load_dataset_outcome_witness :
  ∃ bytes df,
    disk "data.csv" = Some (File bytes)
    ∧ load_dataset parse_csv_plain disk "data.csv" [] = (inr 0%nat, [df])
    ∧ (parse_csv_plain Latin1 bytes = inr df
       ∨ ∃ e, parse_csv_plain Latin1 bytes = inl e ∧ parse_csv_plain Utf8 bytes = inr df).
Proof.
  destruct (load_dataset parse_csv_plain disk "data.csv" []) as [res h'] eqn:Hrun.
  pose proof (load_dataset_outcome parse_csv_plain disk "data.csv" [] res h' Hrun) as H.
  destruct res as [e|r]; [by vm_compute in Hrun|].
  destruct H as (-> & bytes & df & Hfile & -> & Hparse).
  by exists bytes, df.
Defined.

Lemma script_dataset_error_witness :
  run_script demo_world (demo_inputs "missing.csv" "segment.pkl" KlasifikasiSegment true)
  = (inl Stopped,
     ([],
      ("st.info",
       [AStr "Pastikan CSV ada di folder yang sama dengan main.py, atau ubah path di sidebar."])
      :: ("st.error",
          [AStr "❌ Gagal load dataset: File dataset tidak ditemukan: missing.csv"])
      :: header_calls)).
Proof.
  apply (script_dataset_error demo_world
           (demo_inputs "missing.csv" "segment.pkl" KlasifikasiSegment true)
           (FileNotFoundError "File dataset tidak ditemukan: missing.csv") []).
  vm_compute. reflexivity.
Defined.

Lemma script_missing_date_columns_witness :
  run_script demo_world (demo_inputs "undated.csv" "segment.pkl" KlasifikasiSegment true)
  = (inl Stopped,
     ([undated_as_text; undated_as_text],
      ("st.error",
       [AStr "❌ Feature engineering gagal: Kolom wajib tidak ada: Ship Date"])
      :: overview_calls (demo_inputs "undated.csv" "segment.pkl" KlasifikasiSegment true)
                        undated_as_text
      ++ header_calls)).
Proof.
  apply (script_missing_date_columns demo_world
           (demo_inputs "undated.csv" "segment.pkl" KlasifikasiSegment true)
           undated_as_text undated_file_loads).
  by_computation.
Defined.





Lemma model_unused_without_button_witness :
  run_script demo_world_retrained
             (demo_inputs "orders.csv" "segment.pkl" KlasifikasiSegment false)
  = run_script demo_world
               (demo_inputs "orders.csv" "segment.pkl" KlasifikasiSegment false).
Proof.
  apply model_unused_without_button; try reflexivity.
  intros p. simpl.
  repeat match goal with
         | |- context [String.eqb p ?s] => destruct (String.eqb p s)
         end; simpl; done.
Defined.



(** * Columns with a time zone, answers that are not arrays *)

(** When "Order Date" parses with a time zone and "Ship Date" without, and
    pandas refuses their difference, the enrichment raises that error
    after the column check, and the script reports it and stops. *)
Example enrichment_refuses_mixed_time_zones :
  to_datetime_offsets (default [] (col_lookup "Order Date" (cols orders_with_offset)))
  = inr (OtherDtype [VDate 1672876800000000000; VDate 1675209600000000000])
  ∧ dates_parse to_datetime_iso orders_with_offset
  ∧ ¬ dates_parse to_datetime_offsets orders_with_offset
  ∧ (add_feature_engineering to_datetime_offsets id no_other_dtypes 0%nat
                             [orders_with_offset]).1
    = inl (TypeError "Cannot subtract tz-naive and tz-aware datetime-like objects.").
Proof.
  split_and!.
  - vm_compute. reflexivity.
  - apply to_datetime_iso_parses.
  - intros [[l Hl] _]. vm_compute in Hl. discriminate.
  - vm_compute. reflexivity.
Qed.

(** A Series with predictions for two of the three orders is not refused:
    the request returns a table whose third prediction is missing. *)
Example short_series_is_accepted :
  ∃ o h' out,
    predict_request to_datetime_iso id no_other_dtypes KlasifikasiSegment 0%nat
                    two_row_series_classifier [orders3]
    = (inr o, h')
    ∧ h' !! o = Some out
    ∧ index_len out = 3%nat
    ∧ col_lookup "Predicted Segment" (cols out)
      = Some [VStr "Consumer"; VStr "Corporate"; Missing].
Proof. eexists _, _, _. split_and!; vm_compute; reflexivity. Qed.
